(** * Patient management API and insurance predictor: model and properties

    A shallow embedding of [main.py] (the patient CRUD service over
    [patients.json]) and of [insurance/app.py] (the prediction endpoint).

    - Python floats are IEEE 754 binary64 numbers, taken from the Standard
      Library's [spec_float] with precision 53 and maximal exponent 1024.
    - A Python dict is an association list in insertion order.
    - A handler is a function of the file's content that returns either
      the raised exception or the returned value, and the new content.
    - Two things the program calls and does not contain are parameters:
      the C library's [pow] behind [x ** 2], and pydantic's conversion of
      a string to a number.  The properties are proved for every such
      parameter; the closed facts at the end are computed with the
      reference instances. *)

From Stdlib Require Import ZArith List String Ascii Bool Lia.
From Stdlib Require Import Floats.SpecFloat.
From Stdlib Require Import Sorting.Permutation Sorting.Sorted.
Import ListNotations.

Open Scope string_scope.
Open Scope Z_scope.

(** ** Python floats *)

Definition float := spec_float.

Definition prec : Z := 53.
Definition emax : Z := 1024.

Definition nan : float := S754_nan.

(** [float(n)] for a Python int, rounded to nearest even. *)
Definition float_of_Z (n : Z) : float := binary_normalize prec emax n 0 false.

(** The double nearest to [n / 10^k]: the value of the decimal literal
    with digits [n] and [k] digits after the point, such as [24.9] for
    [float_lit 249 1], as Python's parser and [json.load] read it. *)
Definition float_lit (n : Z) (k : Z) : float :=
  let den := S754_finite false (Z.to_pos (10 ^ k)) 0 in
  match n with
  | Z0 => S754_zero false
  | Zpos p => SFdiv prec emax (S754_finite false p 0) den
  | Zneg p => SFdiv prec emax (S754_finite true p 0) den
  end.

Definition float_lt (x y : float) : bool := SFltb x y.
Definition float_le (x y : float) : bool := SFleb x y.
Definition float_eq (x y : float) : bool := SFeqb x y.

Definition is_nan (x : float) : bool :=
  match x with S754_nan => true | _ => false end.

Definition is_zero (x : float) : bool :=
  match x with S754_zero _ => true | _ => false end.

Definition is_inf (x : float) : bool :=
  match x with S754_infinity _ => true | _ => false end.

(** Division of [a] by [b > 0] rounded to the nearest integer, ties to the
    even one. *)
Definition div_half_even (a b : Z) : Z :=
  let q := a / b in
  let r := a mod b in
  match 2 * r ?= b with
  | Lt => q
  | Gt => q + 1
  | Eq => if Z.even q then q else q + 1
  end.

(** [round(x, 2)] on a float: the exact binary value of [x] is rounded to
    two decimals (ties to even, which only an exactly representable tie
    meets), and the decimal result is read back as the nearest double.
    Zeros, infinities and NaN round to themselves. *)
Definition round2 (x : float) : float :=
  match x with
  | S754_finite s m e =>
      let n := if 0 <=? e then Zpos m * 2 ^ e * 100
               else div_half_even (Zpos m * 100) (2 ^ (- e)) in
      match n with
      | Zpos p => SFdiv prec emax (S754_finite s p 0) (S754_finite false 100 0)
      | _ => S754_zero s
      end
  | _ => x
  end.

(** Exact comparison of a Python int with a float, as [int.__lt__] against
    a float does it: no rounding of the int. *)
Definition Z_float_compare (n : Z) (x : float) : option comparison :=
  match x with
  | S754_nan => None
  | S754_infinity s => Some (if s then Gt else Lt)
  | S754_zero _ => Some (n ?= 0)
  | S754_finite s m e =>
      let v := if s then Zneg m else Zpos m in
      if 0 <=? e then Some (n ?= v * 2 ^ e) else Some (n * 2 ^ (- e) ?= v)
  end.

(** ** Exceptions and results *)

Inductive exn : Type :=
| HTTPException (status_code : Z) (detail : string)
| ValidationError (errors : list (string * string))
| RequestValidationError (errors : list (string * string))
| ZeroDivisionError
| OverflowError
| KeyError (key : string)
| TypeError.

Definition result (A : Type) : Type := (exn + A)%type.

Definition ok {A} (a : A) : result A := inr a.
Definition throw {A} (e : exn) : result A := inl e.

Definition rbind {A B} (c : result A) (k : A -> result B) : result B :=
  match c with
  | inl e => inl e
  | inr a => k a
  end.

Declare Scope result_scope.
Delimit Scope result_scope with res.
Notation "x <- c ;; k" := (rbind c (fun x => k))
  (at level 61, c at next level, right associativity) : result_scope.

(** [a / b] on floats: Python raises on a zero divisor. *)
Definition float_truediv (a b : float) : result float :=
  if is_zero b then throw ZeroDivisionError else ok (SFdiv prec emax a b).

(** The float is NaN or its sign bit is clear. *)
Definition sign_clear (x : float) : Prop :=
  match x with
  | S754_nan => True
  | S754_zero s | S754_infinity s | S754_finite s _ _ => s = false
  end.

(** The C library behind [float.__pow__]: [libm_pow2 x] is what
    [pow(x, 2.0)] returns on a finite [x > 0].  Its last bit differs
    between libraries, so it is a parameter; all that is asked of it is
    that the square of a positive number is not negative. *)
Class Libm : Type := {
  libm_pow2 : float -> float;
  libm_pow2_sign : forall m e, sign_clear (libm_pow2 (S754_finite false m e))
}.

Definition float_one : float := float_of_Z 1.

(** [x ** 2] on a float.  NaN, infinities, zeros and a base of absolute
    value 1.0 are settled before the C library is called; otherwise [pow]
    is called on the absolute value, and an infinite result raises. *)
Definition float_pow2 {libm : Libm} (x : float) : result float :=
  match x with
  | S754_nan => ok nan
  | S754_infinity _ => ok (S754_infinity false)
  | S754_zero _ => ok (S754_zero false)
  | S754_finite _ m e =>
      let iv := S754_finite false m e in
      if float_eq iv float_one then ok float_one
      else
        let r := libm_pow2 iv in
        if is_inf r then throw OverflowError else ok r
  end.

(** ** Python values and dicts *)

(** The scalars [json.load] yields for the records this program writes.
    Arrays and objects inside a record body are not modelled. *)
Inductive pyval : Type :=
| PNone
| PInt (n : Z)
| PFloat (x : float)
| PStr (s : string).

(** A dict with string keys, in insertion order. *)
Definition dict (V : Type) : Type := list (string * V).

Module Dict.

Fixpoint get {V} (k : string) (d : dict V) : option V :=
  match d with
  | [] => None
  | (k', v) :: d' => if String.eqb k k' then Some v else get k d'
  end.

(** [k in d] *)
Definition contains {V} (k : string) (d : dict V) : bool :=
  match get k d with Some _ => true | None => false end.

(** [d[k]] *)
Definition getitem {V} (k : string) (d : dict V) : result V :=
  match get k d with
  | Some v => ok v
  | None => throw (KeyError k)
  end.

(** [d[k] = v]: an existing key keeps its place, a new one goes last. *)
Fixpoint set {V} (k : string) (v : V) (d : dict V) : dict V :=
  match d with
  | [] => [(k, v)]
  | (k', v') :: d' =>
      if String.eqb k k' then (k', v) :: d' else (k', v') :: set k v d'
  end.

(** [del d[k]] *)
Fixpoint del {V} (k : string) (d : dict V) : dict V :=
  match d with
  | [] => []
  | (k', v') :: d' => if String.eqb k k' then d' else (k', v') :: del k d'
  end.

Definition keys {V} (d : dict V) : list string := map fst d.
Definition values {V} (d : dict V) : list V := map snd d.

(** [for k, v in u.items(): d[k] = v] *)
Definition update {V} (d u : dict V) : dict V :=
  fold_left (fun acc kv => set (fst kv) (snd kv) acc) u d.

(** The entries whose key is not in [exclude]. *)
Definition without {V} (exclude : list string) (d : dict V) : dict V :=
  filter (fun kv => negb (existsb (String.eqb (fst kv)) exclude)) d.

End Dict.

(** ** Field validation (pydantic, lax mode)

    A field validator returns the converted value or the type of the
    error.  An int field takes an int, a float without fractional part or
    a string that pydantic reads as an int; a float field takes a float,
    an int or a string that pydantic reads as a float. *)

Definition field_result (A : Type) : Type := (string + A)%type.

(** Pydantic's reading of a string as a number in lax mode (which
    spellings it takes: spaces, signs, underscores, exponents) is not part
    of the program: it is a parameter. *)
Class LaxStrings : Type := {
  int_of_str : string -> field_result Z;
  float_of_str : string -> field_result float
}.

(** A float for an int field: it must be finite, without fractional part
    and strictly between -2^63 and 2^63. *)
Definition float_as_int (x : float) : field_result Z :=
  match x with
  | S754_nan => inl "finite_number"
  | S754_infinity _ => inl "finite_number"
  | S754_zero _ => inr 0
  | S754_finite s m e =>
      let v := if s then Zneg m else Zpos m in
      let n := if 0 <=? e then Some (v * 2 ^ e)
               else if Zpos m mod 2 ^ (- e) =? 0 then Some (v / 2 ^ (- e))
               else None in
      match n with
      | None => inl "int_from_float"
      | Some n =>
          if (- 2 ^ 63 <? n) && (n <? 2 ^ 63) then inr n
          else inl "int_parsing_size"
      end
  end.

Definition validate_str (v : pyval) : field_result string :=
  match v with
  | PStr s => inr s
  | _ => inl "string_type"
  end.

Definition validate_int {lax : LaxStrings} (v : pyval) : field_result Z :=
  match v with
  | PInt n => inr n
  | PFloat x => float_as_int x
  | PStr s => int_of_str s
  | PNone => inl "int_type"
  end.

Definition validate_float {lax : LaxStrings} (v : pyval)
    : field_result float :=
  match v with
  | PFloat x => inr x
  | PInt n =>
      let x := float_of_Z n in
      if is_inf x then inl "float_type" else inr x
  | PStr s => float_of_str s
  | PNone => inl "float_type"
  end.

(** [Field(gt=lo)] and [Field(lt=hi)] on an int. *)
Definition int_gt (lo : Z) (r : field_result Z) : field_result Z :=
  match r with
  | inr n => if lo <? n then inr n else inl "greater_than"
  | inl e => inl e
  end.

Definition int_lt (hi : Z) (r : field_result Z) : field_result Z :=
  match r with
  | inr n => if n <? hi then inr n else inl "less_than"
  | inl e => inl e
  end.

(** [Field(gt=0)] on a float: NaN fails the comparison and is refused. *)
Definition float_gt0 (r : field_result float) : field_result float :=
  match r with
  | inr x => if float_lt (S754_zero false) x then inr x else inl "greater_than"
  | inl e => inl e
  end.

(** A required field, [Field(...)]. *)
Definition required {A} (validate : pyval -> field_result A)
    (v : option pyval) : field_result A :=
  match v with
  | None => inl "missing"
  | Some v => validate v
  end.

(** An optional field, [Optional[T]] with [default=None].  The result
    tells an absent field ([None]) from one given as null ([Some None])
    and from one given a value, which is what [exclude_unset] looks at. *)
Definition optional {A} (validate : pyval -> field_result A)
    (v : option pyval) : field_result (option (option A)) :=
  match v with
  | None => inr None
  | Some PNone => inr (Some None)
  | Some v =>
      match validate v with
      | inr a => inr (Some (Some a))
      | inl e => inl e
      end
  end.

Definition field_errors {A} (loc : string) (r : field_result A)
    : list (string * string) :=
  match r with
  | inl e => [(loc, e)]
  | inr _ => []
  end.

(** ** The Patient model *)

Module Patient.

Inductive Gender : Type := male | female | other.

Definition gender_str (g : Gender) : string :=
  match g with
  | male => "male"
  | female => "female"
  | other => "other"
  end.

Definition validate_gender (v : pyval) : field_result Gender :=
  match v with
  | PStr s =>
      if String.eqb s "male" then inr male
      else if String.eqb s "female" then inr female
      else if String.eqb s "other" then inr other
      else inl "literal_error"
  | _ => inl "literal_error"
  end.

Record t : Type := {
  id : string;
  name : string;
  city : string;
  age : Z;
  gender : Gender;
  height : float;
  weight : float
}.

(** The constructor [Patient] applied to the keyword arguments [d]:
    every field is validated and the errors of all
    fields are reported together; keys that are no field are ignored. *)
Definition validate {lax : LaxStrings} (d : dict pyval) : result t :=
  let r_id := required validate_str (Dict.get "id" d) in
  let r_name := required validate_str (Dict.get "name" d) in
  let r_city := required validate_str (Dict.get "city" d) in
  let r_age := int_lt 120 (int_gt 0 (required validate_int (Dict.get "age" d))) in
  let r_gender := required validate_gender (Dict.get "gender" d) in
  let r_height := float_gt0 (required validate_float (Dict.get "height" d)) in
  let r_weight := float_gt0 (required validate_float (Dict.get "weight" d)) in
  match r_id, r_name, r_city, r_age, r_gender, r_height, r_weight with
  | inr i, inr n, inr c, inr a, inr g, inr h, inr w =>
      ok {| id := i; name := n; city := c; age := a; gender := g;
            height := h; weight := w |}
  | _, _, _, _, _, _, _ =>
      throw (ValidationError
               (field_errors "id" r_id ++ field_errors "name" r_name ++
                field_errors "city" r_city ++ field_errors "age" r_age ++
                field_errors "gender" r_gender ++
                field_errors "height" r_height ++
                field_errors "weight" r_weight)%list)
  end.

(** [round(self.weight / ((self.height / 100) ** 2), 2)] *)
Definition bmi {libm : Libm} (self : t) : result float :=
  (m <- float_truediv (height self) (float_of_Z 100) ;;
   sq <- float_pow2 m ;;
   q <- float_truediv (weight self) sq ;;
   ok (round2 q))%res.

(** The [if]/[elif] chain of [verdict]; the property [bmi] is read anew
    in each condition that is reached. *)
Definition verdict {libm : Libm} (self : t) : result string :=
  (b1 <- bmi self ;;
   if float_lt b1 (float_lit 185 1) then ok "Underweight"
   else
     b2 <- bmi self ;;
     if float_le (float_lit 185 1) b2 && float_lt b2 (float_lit 249 1)
     then ok "Normal weight"
     else
       b3 <- bmi self ;;
       if float_le (float_of_Z 25) b3 && float_lt b3 (float_lit 299 1)
       then ok "Overweight"
       else ok "Obesity")%res.

(** [self.model_dump(exclude=...)]: the fields in declaration order, then
    the computed fields. *)
Definition model_dump {libm : Libm} (exclude : list string) (self : t)
    : result (dict pyval) :=
  (b <- bmi self ;;
   v <- verdict self ;;
   ok (Dict.without exclude
         [("id", PStr (id self));
          ("name", PStr (name self));
          ("city", PStr (city self));
          ("age", PInt (age self));
          ("gender", PStr (gender_str (gender self)));
          ("height", PFloat (height self));
          ("weight", PFloat (weight self));
          ("bmi", PFloat b);
          ("verdict", PStr v)]))%res.

End Patient.

(** ** The PatientUpdate model *)

Module PatientUpdate.

(** A field is [None] when the request left it out, [Some None] when the
    request gave null, [Some (Some v)] when it gave the value [v]. *)
Record t : Type := {
  name : option (option string);
  city : option (option string);
  age : option (option Z);
  gender : option (option Patient.Gender);
  height : option (option float);
  weight : option (option float)
}.

Definition optional_gt0_int (r : field_result (option (option Z)))
    : field_result (option (option Z)) :=
  match r with
  | inr (Some (Some n)) => if 0 <? n then r else inl "greater_than"
  | _ => r
  end.

Definition optional_gt0_float (r : field_result (option (option float)))
    : field_result (option (option float)) :=
  match r with
  | inr (Some (Some x)) =>
      if float_lt (S754_zero false) x then r else inl "greater_than"
  | _ => r
  end.

Definition validate {lax : LaxStrings} (d : dict pyval) : result t :=
  let r_name := optional validate_str (Dict.get "name" d) in
  let r_city := optional validate_str (Dict.get "city" d) in
  let r_age := optional_gt0_int (optional validate_int (Dict.get "age" d)) in
  let r_gender := optional Patient.validate_gender (Dict.get "gender" d) in
  let r_height :=
    optional_gt0_float (optional validate_float (Dict.get "height" d)) in
  let r_weight :=
    optional_gt0_float (optional validate_float (Dict.get "weight" d)) in
  match r_name, r_city, r_age, r_gender, r_height, r_weight with
  | inr n, inr c, inr a, inr g, inr h, inr w =>
      ok {| name := n; city := c; age := a; gender := g;
            height := h; weight := w |}
  | _, _, _, _, _, _ =>
      throw (ValidationError
               (field_errors "name" r_name ++ field_errors "city" r_city ++
                field_errors "age" r_age ++ field_errors "gender" r_gender ++
                field_errors "height" r_height ++
                field_errors "weight" r_weight)%list)
  end.

Definition dump_field {A} (key : string) (to_py : A -> pyval)
    (f : option (option A)) : dict pyval :=
  match f with
  | None => []
  | Some None => [(key, PNone)]
  | Some (Some a) => [(key, to_py a)]
  end.

(** [self.model_dump(exclude_unset=True)]: the fields the request set,
    in declaration order. *)
Definition model_dump_exclude_unset (self : t) : dict pyval :=
  (dump_field "name" PStr (name self) ++
   dump_field "city" PStr (city self) ++
   dump_field "age" PInt (age self) ++
   dump_field "gender" (fun g => PStr (Patient.gender_str g)) (gender self) ++
   dump_field "height" PFloat (height self) ++
   dump_field "weight" PFloat (weight self))%list.

End PatientUpdate.

(** ** The flat-file store and the handler monad *)

(** The content of [patients.json]: patient id to record body. *)
Definition file : Type := dict (dict pyval).

(** A handler reads and writes the file and may raise. *)
Definition M (A : Type) : Type := file -> result A * file.

Definition mret {A} (a : A) : M A := fun f => (ok a, f).

Definition mraise {A} (e : exn) : M A := fun f => (throw e, f).

Definition mbind {A B} (c : M A) (k : A -> M B) : M B :=
  fun f =>
    match c f with
    | (inl e, f') => (inl e, f')
    | (inr a, f') => k a f'
    end.

(** A computation that does not touch the file. *)
Definition lift {A} (r : result A) : M A := fun f => (r, f).

Declare Scope handler_scope.
Delimit Scope handler_scope with M.
Notation "x <- c ;; k" := (mbind c (fun x => k))
  (at level 61, c at next level, right associativity) : handler_scope.

Definition load_data : M file := fun f => (ok f, f).

Definition save_data (data : file) : M unit := fun _ => (ok tt, data).

Record JSONResponse : Type := {
  status_code : Z;
  content : dict pyval
}.

(** ** Route handlers of the patient service *)

Definition view : M file :=
  (data <- load_data ;;
   mret data)%M.

Definition view_patient (patient_id : string) : M (dict pyval) :=
  (data <- load_data ;;
   if Dict.contains patient_id data
   then lift (Dict.getitem patient_id data)
   else mraise (HTTPException 404 "Patient not found"))%M.

(** [a < b] on Python values: numbers compare by value, strings by code
    points, anything else is a type error. *)
Definition py_lt (a b : pyval) : result bool :=
  match a, b with
  | PInt x, PInt y => ok (x <? y)
  | PFloat x, PFloat y => ok (float_lt x y)
  | PInt x, PFloat y =>
      ok (match Z_float_compare x y with Some Lt => true | _ => false end)
  | PFloat x, PInt y =>
      ok (match Z_float_compare y x with Some Gt => true | _ => false end)
  | PStr x, PStr y => ok (String.ltb x y)
  | _, _ => throw TypeError
  end.

Section Sorted.

Context {A : Type}.

(** Insertion of an element that stood before all of [l]: it stops in
    front of the first element that is not smaller than it. *)
Fixpoint insert (kx : pyval * A) (l : list (pyval * A))
    : result (list (pyval * A)) :=
  match l with
  | [] => ok [kx]
  | ky :: l' =>
      (b <- py_lt (fst ky) (fst kx) ;;
       if b then (r <- insert kx l' ;; ok (ky :: r))
       else ok (kx :: ky :: l'))%res
  end.

Fixpoint sort_keyed (l : list (pyval * A)) : result (list (pyval * A)) :=
  match l with
  | [] => ok []
  | kx :: l' => (s <- sort_keyed l' ;; insert kx s)%res
  end.

(** The key of every element is computed before any comparison. *)
Fixpoint with_keys (key : A -> result pyval) (l : list A)
    : result (list (pyval * A)) :=
  match l with
  | [] => ok []
  | x :: l' =>
      (k <- key x ;; r <- with_keys key l' ;; ok ((k, x) :: r))%res
  end.

(** [sorted(l, key=key, reverse=reverse)]: a stable sort on the keys.
    With [reverse] the list is reversed, sorted and reversed again, as
    [list.sort] does it, which keeps equal keys in their first order.
    A stable sort has one result on keys that are totally ordered; that
    is where this insertion sort stands for Python's. *)
Definition sorted (l : list A) (key : A -> result pyval) (reverse : bool)
    : result (list A) :=
  (keyed <- with_keys key l ;;
   s <- sort_keyed (if reverse then rev keyed else keyed) ;;
   ok (map snd (if reverse then rev s else s)))%res.

End Sorted.

Definition valid_fields : list string := ["height"; "weight"; "bmi"].

Definition sort_patients (sort_by order : string) : M (list (dict pyval)) :=
  if negb (existsb (String.eqb sort_by) valid_fields)
  then mraise (HTTPException 400
                 "Invalid field select from ['height', 'weight', 'bmi']")
  else if negb (existsb (String.eqb order) ["asc"; "desc"])
  then mraise (HTTPException 400 "Order must be 'asc' or 'desc'")
  else
    (data <- load_data ;;
     let sort_order := if String.eqb order "desc" then true else false in
     sorted_data <- lift (sorted (Dict.values data)
                            (fun x => Dict.getitem sort_by x) sort_order) ;;
     mret sorted_data)%M.

Definition create_patient {libm : Libm} (patient : Patient.t)
    : M JSONResponse :=
  (data <- load_data ;;
   if Dict.contains (Patient.id patient) data
   then mraise (HTTPException 400 "Patient ID already exists")
   else
     body <- lift (Patient.model_dump ["id"] patient) ;;
     let data := Dict.set (Patient.id patient) body data in
     _ <- save_data data ;;
     mret {| status_code := 201;
             content := [("message", PStr "Patient created successfully");
                         ("patient_id", PStr (Patient.id patient))] |})%M.

(** In the source [existing_patient_info] is the very dict held in [data],
    so the merge and the added [id] also show in [data] until the entry is
    replaced by the fresh dump; [data] is local to the call and reaches the
    file only through [save_data]. *)
Definition update_patient {libm : Libm} {lax : LaxStrings}
    (patient_id : string) (patient_update : PatientUpdate.t)
    : M JSONResponse :=
  (data <- load_data ;;
   if negb (Dict.contains patient_id data)
   then mraise (HTTPException 404 "Patient not found")
   else
     existing_patient_info <- lift (Dict.getitem patient_id data) ;;
     let update_patient_info :=
       PatientUpdate.model_dump_exclude_unset patient_update in
     let existing_patient_info :=
       Dict.update existing_patient_info update_patient_info in
     let existing_patient_info :=
       Dict.set "id" (PStr patient_id) existing_patient_info in
     let data := Dict.set patient_id existing_patient_info data in
     patient_pydantic_object <- lift (Patient.validate existing_patient_info) ;;
     existing_patient_info <-
       lift (Patient.model_dump ["id"] patient_pydantic_object) ;;
     let data := Dict.set patient_id existing_patient_info data in
     _ <- save_data data ;;
     mret {| status_code := 200;
             content := [("message", PStr "Patient updated successfully");
                         ("patient_id", PStr patient_id)] |})%M.

Definition delete_patient (patient_id : string) : M JSONResponse :=
  (data <- load_data ;;
   if negb (Dict.contains patient_id data)
   then mraise (HTTPException 404 "Patient not found")
   else
     let data := Dict.del patient_id data in
     _ <- save_data data ;;
     mret {| status_code := 200;
             content := [("message", PStr "Patient deleted successfully");
                         ("patient_id", PStr patient_id)] |})%M.

(** What FastAPI does around a handler whose parameter is a model: the
    JSON body is validated first and the handler runs only on a validated
    object; a body that fails raises [RequestValidationError] and the
    handler is not run. *)
Definition request_body {A} (r : result A) : M A :=
  lift (match r with
        | inl (ValidationError errors) => inl (RequestValidationError errors)
        | _ => r
        end).


Definition put_update {libm : Libm} {lax : LaxStrings} (patient_id : string)
    (body : dict pyval) : M JSONResponse :=
  (patient_update <- request_body (PatientUpdate.validate body) ;;
   update_patient patient_id patient_update)%M.

(** The status of the HTTP answer: the handler's own response, the status
    of a raised [HTTPException], 422 for a request body that fails
    validation, 500 for any other exception. *)
Definition http_status (r : result JSONResponse) : Z :=
  match r with
  | inr resp => status_code resp
  | inl (HTTPException s _) => s
  | inl (RequestValidationError _) => 422
  | inl _ => 500
  end.

(** ** The insurance predictor *)

Module Insurance.

(** The fields of [UserInput] that [predict] reads. *)
Record UserInput : Type := {
  bmi : pyval;
  age_group : pyval;
  lifestyle_risk : pyval;
  city_tier : pyval;
  income_lpa : pyval;
  occupation : pyval
}.

Section Predict.

(** The classifier of [model.predict] is not part of the model: it is
    a parameter.  A call takes the feature dict and the classifier's
    state, and gives the new state with either the label or the
    message of the exception it raised. *)
Variable model_state : Type.
Variable predict_output :
  dict pyval -> model_state -> (string + string) * model_state.

Definition predict (data : UserInput) (st : model_state)
    : JSONResponse * model_state :=
  let user_input :=
    [("bmi", bmi data);
     ("age_group", age_group data);
     ("lifestyle_risk", lifestyle_risk data);
     ("city_tier", city_tier data);
     ("income_lpa", income_lpa data);
     ("occupation", occupation data)] in
  match predict_output user_input st with
  | (inr prediction, st') =>
      ({| status_code := 200;
          content := [("response", PStr prediction)] |}, st')
  | (inl e, st') =>
      ({| status_code := 500; content := [("error", PStr e)] |}, st')
  end.

End Predict.

End Insurance.

(** ** Orders used to state the properties *)

(** The base constraints of [Patient]: [gt=0, lt=120] on the age and
    [gt=0] on height and weight. *)
Definition base_constraints (p : Patient.t) : Prop :=
  0 < Patient.age p < 120 /\
  float_lt (S754_zero false) (Patient.height p) = true /\
  float_lt (S754_zero false) (Patient.weight p) = true.

(** The body [model_dump(exclude=["id"])] builds from a patient and its
    derived fields. *)
Definition record_body (p : Patient.t) (b : float) (v : string)
    : dict pyval :=
  [("name", PStr (Patient.name p));
   ("city", PStr (Patient.city p));
   ("age", PInt (Patient.age p));
   ("gender", PStr (Patient.gender_str (Patient.gender p)));
   ("height", PFloat (Patient.height p));
   ("weight", PFloat (Patient.weight p));
   ("bmi", PFloat b);
   ("verdict", PStr v)].

(** A request body that sets the weight and nothing else. *)
Definition weight_only (w : float) : PatientUpdate.t :=
  {| PatientUpdate.name := None; PatientUpdate.city := None;
     PatientUpdate.age := None; PatientUpdate.gender := None;
     PatientUpdate.height := None; PatientUpdate.weight := Some (Some w) |}.

Definition with_weight (p : Patient.t) (w : float) : Patient.t :=
  {| Patient.id := Patient.id p; Patient.name := Patient.name p;
     Patient.city := Patient.city p; Patient.age := Patient.age p;
     Patient.gender := Patient.gender p; Patient.height := Patient.height p;
     Patient.weight := w |}.

Definition with_id (p : Patient.t) (i : string) : Patient.t :=
  {| Patient.id := i; Patient.name := Patient.name p;
     Patient.city := Patient.city p; Patient.age := Patient.age p;
     Patient.gender := Patient.gender p; Patient.height := Patient.height p;
     Patient.weight := Patient.weight p |}.

(** The place of a float that is not NaN in the order of the reals: the
    class (negative infinity, negative, zero, positive, positive infinity),
    then exponent and mantissa.  Both zeros have the same place. *)
Definition float_rank (x : float) : Z * Z * Z :=
  match x with
  | S754_nan => (0, 0, 0)
  | S754_zero _ => (0, 0, 0)
  | S754_infinity true => (-2, 0, 0)
  | S754_infinity false => (2, 0, 0)
  | S754_finite false m e => (1, e, Zpos m)
  | S754_finite true m e => (-1, - e, Zneg m)
  end.

Definition rank_lt (a b : Z * Z * Z) : Prop :=
  let '(a1, a2, a3) := a in
  let '(b1, b2, b3) := b in
  a1 < b1 \/ (a1 = b1 /\ (a2 < b2 \/ (a2 = b2 /\ a3 < b3))).

(** A record body as the program writes it: the dump of a patient that
    meets the base constraints, with its derived fields. *)
Definition written_record {libm : Libm} (body : dict pyval) : Prop :=
  exists p b v,
    base_constraints p /\
    Patient.bmi p = ok b /\ Patient.verdict p = ok v /\
    body = record_body p b v.

(** A request body that sets the age and nothing else. *)
Definition age_only (a : Z) : PatientUpdate.t :=
  {| PatientUpdate.name := None; PatientUpdate.city := None;
     PatientUpdate.age := Some (Some a); PatientUpdate.gender := None;
     PatientUpdate.height := None; PatientUpdate.weight := None |}.

Definition updated_response (patient_id : string) : JSONResponse :=
  {| status_code := 200;
     content := [("message", PStr "Patient updated successfully");
                 ("patient_id", PStr patient_id)] |}.

Definition created_response (patient_id : string) : JSONResponse :=
  {| status_code := 201;
     content := [("message", PStr "Patient created successfully");
                 ("patient_id", PStr patient_id)] |}.

(** ** Keys of the sort *)








(** ** Invariants of the file *)

Definition deleted_response (patient_id : string) : JSONResponse :=
  {| status_code := 200;
     content := [("message", PStr "Patient deleted successfully");
                 ("patient_id", PStr patient_id)] |}.

Definition not_found : exn := HTTPException 404 "Patient not found".

(** The file is a dict (no id twice) and every body is one the program
    writes. *)
Definition well_formed_file {libm : Libm} (f : file) : Prop :=
  NoDup (Dict.keys f) /\ Forall written_record (Dict.values f).

(** ** Updates as functions on patients *)

Definition overwrite {A} (old : A) (f : option (option A)) : A :=
  match f with
  | Some (Some a) => a
  | _ => old
  end.

(** The patient with the fields that the update gives a value replaced. *)
Definition apply_update (p : Patient.t) (u : PatientUpdate.t) : Patient.t :=
  {| Patient.id := Patient.id p;
     Patient.name := overwrite (Patient.name p) (PatientUpdate.name u);
     Patient.city := overwrite (Patient.city p) (PatientUpdate.city u);
     Patient.age := overwrite (Patient.age p) (PatientUpdate.age u);
     Patient.gender := overwrite (Patient.gender p) (PatientUpdate.gender u);
     Patient.height := overwrite (Patient.height p) (PatientUpdate.height u);
     Patient.weight := overwrite (Patient.weight p) (PatientUpdate.weight u) |}.

Definition is_null {A} (f : option (option A)) : bool :=
  match f with
  | Some None => true
  | _ => false
  end.

(** Some field of the update was given as null. *)
Definition has_null (u : PatientUpdate.t) : bool :=
  is_null (PatientUpdate.name u) || is_null (PatientUpdate.city u) ||
  is_null (PatientUpdate.age u) || is_null (PatientUpdate.gender u) ||
  is_null (PatientUpdate.height u) || is_null (PatientUpdate.weight u).

(** The names of the verdicts. *)
Definition verdicts : list string :=
  ["Underweight"; "Normal weight"; "Overweight"; "Obesity"].

(** ** Reference instances

    The closed facts at the end of the file are computed with these: a
    [pow] that returns the correctly rounded square (a C library may
    differ from it in the last bit on other inputs than those used
    there), and a reading of strings that takes plain decimal numerals
    (an optional sign, digits, and for a float an optional fraction). *)

Definition rounded_square (x : float) : float := SFmul prec emax x x.

#[global] Instance reference_libm : Libm.
Proof.
  refine {| libm_pow2 := rounded_square |}.
  intros m e. unfold rounded_square, SFmul, binary_round_aux.
  destruct (shr_fexp prec emax (Z.pos (m * m)) (e + e) loc_Exact)
    as [mrs e'].
  destruct (shr_fexp prec emax _ e' loc_Exact) as [mrs' e''].
  destruct (shr_m mrs'); simpl; auto.
  match goal with |- context [if ?c then _ else _] => destruct c end;
    reflexivity.
Defined.

Definition digit_of (c : ascii) : option Z :=
  let n := Z.of_nat (nat_of_ascii c) in
  if (48 <=? n) && (n <=? 57) then Some (n - 48) else None.

(** The value of a string of digits, with the number of digits read. *)
Fixpoint digits_value (s : string) (acc : Z) (len : Z) : option (Z * Z) :=
  match s with
  | EmptyString => Some (acc, len)
  | String c s' =>
      match digit_of c with
      | Some n => digits_value s' (10 * acc + n) (len + 1)
      | None => None
      end
  end.

(** Sign and rest of a numeral. *)
Definition split_sign (s : string) : bool * string :=
  match s with
  | String "-" s' => (true, s')
  | String "+" s' => (false, s')
  | _ => (false, s)
  end.

(** An optional sign and one digit or more. *)
Definition decimal_int (s : string) : field_result Z :=
  let '(neg, body) := split_sign s in
  match digits_value body 0 0 with
  | Some (n, len) =>
      if 0 <? len then inr (if neg then - n else n) else inl "int_parsing"
  | None => inl "int_parsing"
  end.

Fixpoint split_point (s : string) : string * option string :=
  match s with
  | EmptyString => (EmptyString, None)
  | String "." s' => (EmptyString, Some s')
  | String c s' =>
      let '(a, b) := split_point s' in (String c a, b)
  end.

(** An optional sign, one digit or more, and optionally a point and one
    digit or more: the nearest double. *)
Definition decimal_float (s : string) : field_result float :=
  let '(neg, body) := split_sign s in
  let '(int_part, frac_part) := split_point body in
  match digits_value int_part 0 0 with
  | Some (n, len) =>
      if 0 <? len then
        match frac_part with
        | None =>
            inr (if n =? 0 then S754_zero neg
                 else float_lit (if neg then - n else n) 0)
        | Some frac =>
            match digits_value frac n 0 with
            | Some (n', k) =>
                if 0 <? k then
                  inr (if n' =? 0 then S754_zero neg
                       else float_lit (if neg then - n' else n') k)
                else inl "float_parsing"
            | None => inl "float_parsing"
            end
        end
      else inl "float_parsing"
  | None => inl "float_parsing"
  end.

#[global] Instance decimal_strings : LaxStrings :=
  {| int_of_str := decimal_int; float_of_str := decimal_float |}.

(** ** Sample requests *)

(** The documentation's example: 175.5 cm and 70.2 kg. *)
Definition john : Patient.t :=
  {| Patient.id := "P001"; Patient.name := "John Doe";
     Patient.city := "New York"; Patient.age := 30;
     Patient.gender := Patient.male;
     Patient.height := float_lit 1755 1; Patient.weight := float_lit 702 1 |}.

(** 100 cm and 24.95 kg: a BMI of 24.95. *)
Definition gap_patient : Patient.t :=
  {| Patient.id := "P002"; Patient.name := "Jane Roe";
     Patient.city := "Pune"; Patient.age := 41;
     Patient.gender := Patient.female;
     Patient.height := float_of_Z 100; Patient.weight := float_lit 2495 2 |}.

(** A height of 1e-200 cm, which [gt=0] admits. *)
Definition tiny_height_patient : Patient.t :=
  {| Patient.id := "P003"; Patient.name := "Sam Poe";
     Patient.city := "Oslo"; Patient.age := 30;
     Patient.gender := Patient.other;
     Patient.height := float_lit 1 200; Patient.weight := float_lit 702 1 |}.

(** Three patients of 100 cm, whose BMI is their weight: 18.0, 30.0 and
    22.0, created in this order in an empty file. *)
Definition patient_of_weight (i : string) (w : Z) : Patient.t :=
  {| Patient.id := i; Patient.name := "N"; Patient.city := "C";
     Patient.age := 50; Patient.gender := Patient.other;
     Patient.height := float_of_Z 100; Patient.weight := float_of_Z w |}.

Definition three_patients : file :=
  snd (create_patient (patient_of_weight "C" 22)
         (snd (create_patient (patient_of_weight "B" 30)
                 (snd (create_patient (patient_of_weight "A" 18) []))))).


(** A classifier that fails on its first call and answers High after. *)
Definition flaky_classifier (features : dict pyval) (calls : nat)
    : (string + string) * nat :=
  match calls with
  | O => (inl "model not fitted", S calls)
  | S _ => (inr "High", S calls)
  end.

Definition sample_input : Insurance.UserInput :=
  {| Insurance.bmi := PFloat (float_lit 2279 2);
     Insurance.age_group := PStr "adult";
     Insurance.lifestyle_risk := PStr "low";
     Insurance.city_tier := PInt 1;
     Insurance.income_lpa := PFloat (float_lit 125 1);
     Insurance.occupation := PStr "private_job" |}.

(** The three patients and a record that has no bmi entry. *)
Definition file_with_partial_record : file :=
  (three_patients ++ [("D", [("name", PStr "N"); ("height", PInt 170)])])%list.

(** The update that sets no field: the request body [{}]. *)
Definition empty_update : PatientUpdate.t :=
  {| PatientUpdate.name := None; PatientUpdate.city := None;
     PatientUpdate.age := None; PatientUpdate.gender := None;
     PatientUpdate.height := None; PatientUpdate.weight := None |}.

(** An update of name and height, with the name given as null. *)
Definition null_name_update : PatientUpdate.t :=
  {| PatientUpdate.name := Some None; PatientUpdate.city := None;
     PatientUpdate.age := None; PatientUpdate.gender := None;
     PatientUpdate.height := Some (Some (float_of_Z 180));
     PatientUpdate.weight := None |}.

(** An update of city, age and height. *)
Definition move_update : PatientUpdate.t :=
  {| PatientUpdate.name := None; PatientUpdate.city := Some (Some "Boston");
     PatientUpdate.age := Some (Some 31); PatientUpdate.gender := None;
     PatientUpdate.height := Some (Some (float_of_Z 180));
     PatientUpdate.weight := None |}.

(** Both height and weight infinite: the BMI is NaN. *)
Definition infinite_patient : Patient.t :=
  {| Patient.id := "P004"; Patient.name := "Ann Lee";
     Patient.city := "Rome"; Patient.age := 30;
     Patient.gender := Patient.female;
     Patient.height := S754_infinity false;
     Patient.weight := S754_infinity false |}.



(** * Properties

    Everything in this section holds for every C library and every
    reading of strings as numbers. *)

Section Properties.

Context {libm : Libm} {lax : LaxStrings}.

(** ** Dicts *)

Lemma get_set_eq {V} (k : string) (v : V) (d : dict V) :
  Dict.get k (Dict.set k v d) = Some v.
Proof.
  induction d as [| [k' v'] d IH]; simpl.
  - now rewrite String.eqb_refl.
  - destruct (String.eqb k k') eqn:E; simpl; rewrite E; auto.
Qed.

Lemma get_set_ne {V} (k k' : string) (v : V) (d : dict V) :
  k <> k' -> Dict.get k' (Dict.set k v d) = Dict.get k' d.
Proof.
  intros Hne. induction d as [| [k0 v0] d IH]; simpl.
  - destruct (String.eqb k' k) eqn:E; auto.
    apply String.eqb_eq in E. congruence.
  - destruct (String.eqb k k0) eqn:E; simpl.
    + apply String.eqb_eq in E. subst k0.
      destruct (String.eqb k' k) eqn:E'; auto.
      apply String.eqb_eq in E'. congruence.
    + now rewrite IH.
Qed.

Lemma set_set {V} (k : string) (v v' : V) (d : dict V) :
  Dict.set k v (Dict.set k v' d) = Dict.set k v d.
Proof.
  induction d as [| [k0 v0] d IH]; simpl.
  - now rewrite String.eqb_refl.
  - destruct (String.eqb k k0) eqn:E; simpl; rewrite E; congruence.
Qed.

Lemma contains_true {V} (k : string) (d : dict V) :
  Dict.contains k d = true <-> exists v, Dict.get k d = Some v.
Proof.
  unfold Dict.contains. destruct (Dict.get k d); split; intros H.
  - eauto.
  - reflexivity.
  - discriminate.
  - destruct H; discriminate.
Qed.

Lemma contains_false {V} (k : string) (d : dict V) :
  Dict.contains k d = false <-> Dict.get k d = None.
Proof.
  unfold Dict.contains. destruct (Dict.get k d); split; congruence.
Qed.

(** ** Handlers, equation by equation *)

Lemma model_dump_body (p : Patient.t) (body : dict pyval) :
  Patient.model_dump ["id"] p = ok body ->
  exists b v,
    Patient.bmi p = ok b /\ Patient.verdict p = ok v /\
    body = record_body p b v.
Proof.
  unfold Patient.model_dump, rbind.
  destruct (Patient.bmi p) as [e | b]; [discriminate |].
  destruct (Patient.verdict p) as [e | v]; [discriminate |].
  intros H. injection H as <-. exists b, v. auto.
Qed.

Lemma model_dump_of_fields (p : Patient.t) (b : float) (v : string) :
  Patient.bmi p = ok b -> Patient.verdict p = ok v ->
  Patient.model_dump ["id"] p = ok (record_body p b v).
Proof.
  intros Hb Hv. unfold Patient.model_dump, rbind. now rewrite Hb, Hv.
Qed.

Lemma create_patient_eq (p : Patient.t) (f : file) :
  create_patient p f =
  if Dict.contains (Patient.id p) f
  then (throw (HTTPException 400 "Patient ID already exists"), f)
  else
    match Patient.model_dump ["id"] p with
    | inl e => (inl e, f)
    | inr body =>
        (ok {| status_code := 201;
               content := [("message", PStr "Patient created successfully");
                           ("patient_id", PStr (Patient.id p))] |},
         Dict.set (Patient.id p) body f)
    end.
Proof.
  unfold create_patient, mbind, load_data, mraise, lift, save_data, mret.
  simpl. destruct (Dict.contains (Patient.id p) f); [reflexivity |].
  destruct (Patient.model_dump ["id"] p); reflexivity.
Qed.

Lemma update_patient_eq (patient_id : string) (u : PatientUpdate.t)
    (f : file) :
  update_patient patient_id u f =
  match Dict.get patient_id f with
  | None => (throw (HTTPException 404 "Patient not found"), f)
  | Some existing =>
      let merged :=
        Dict.set "id" (PStr patient_id)
          (Dict.update existing (PatientUpdate.model_dump_exclude_unset u)) in
      match Patient.validate merged with
      | inl e => (inl e, f)
      | inr p =>
          match Patient.model_dump ["id"] p with
          | inl e => (inl e, f)
          | inr body =>
              (ok {| status_code := 200;
                     content :=
                       [("message", PStr "Patient updated successfully");
                        ("patient_id", PStr patient_id)] |},
               Dict.set patient_id body f)
          end
      end
  end.
Proof.
  unfold update_patient, mbind, load_data, mraise, lift, save_data, mret,
    Dict.contains, Dict.getitem.
  simpl. destruct (Dict.get patient_id f) as [existing |]; simpl; [| reflexivity].
  destruct (Patient.validate _) as [e | p]; [reflexivity |].
  destruct (Patient.model_dump ["id"] p); [reflexivity |].
  now rewrite set_set.
Qed.

Lemma view_patient_eq (patient_id : string) (f : file) :
  view_patient patient_id f =
  match Dict.get patient_id f with
  | Some body => (ok body, f)
  | None => (throw (HTTPException 404 "Patient not found"), f)
  end.
Proof.
  unfold view_patient, mbind, load_data, mraise, lift, Dict.contains,
    Dict.getitem.
  simpl. destruct (Dict.get patient_id f); reflexivity.
Qed.

Lemma create_patient_success (p : Patient.t) (f f' : file)
    (resp : JSONResponse) :
  create_patient p f = (ok resp, f') ->
  exists b v,
    Dict.contains (Patient.id p) f = false /\
    Patient.bmi p = ok b /\ Patient.verdict p = ok v /\
    f' = Dict.set (Patient.id p) (record_body p b v) f /\
    status_code resp = 201.
Proof.
  rewrite create_patient_eq.
  destruct (Dict.contains (Patient.id p) f); [discriminate |].
  destruct (Patient.model_dump ["id"] p) as [e | body] eqn:Hd; [discriminate |].
  intros H. injection H as <- <-.
  destruct (model_dump_body _ _ Hd) as (b & v & Hb & Hv & ->).
  exists b, v. auto.
Qed.

Lemma update_patient_success (patient_id : string) (u : PatientUpdate.t)
    (f f' : file) (resp : JSONResponse) :
  update_patient patient_id u f = (ok resp, f') ->
  exists existing p b v,
    Dict.get patient_id f = Some existing /\
    Patient.validate
      (Dict.set "id" (PStr patient_id)
         (Dict.update existing (PatientUpdate.model_dump_exclude_unset u)))
      = ok p /\
    Patient.bmi p = ok b /\ Patient.verdict p = ok v /\
    f' = Dict.set patient_id (record_body p b v) f /\
    status_code resp = 200.
Proof.
  rewrite update_patient_eq.
  destruct (Dict.get patient_id f) as [existing |]; [| discriminate].
  cbv zeta.
  destruct (Patient.validate _) as [e | p] eqn:Hv; [discriminate |].
  destruct (Patient.model_dump ["id"] p) as [e | body] eqn:Hd; [discriminate |].
  intros H. injection H as <- <-.
  destruct (model_dump_body _ _ Hd) as (b & v & Hb & Hvd & ->).
  exists existing, p, b, v. repeat split; auto.
Qed.

(** ** Comparison of floats *)

Ltac rank_case :=
  eexists; split; [reflexivity |];
  unfold rank_lt; simpl;
  repeat split; intros HH; try discriminate; try lia;
  try (injection HH; intros; lia); try (f_equal; lia); try (subst; reflexivity).

Lemma float_compare_rank (x y : float) :
  is_nan x = false -> is_nan y = false ->
  exists c,
    SFcompare x y = Some c /\
    (c = Lt <-> rank_lt (float_rank x) (float_rank y)) /\
    (c = Eq <-> float_rank x = float_rank y) /\
    (c = Gt <-> rank_lt (float_rank y) (float_rank x)).
Proof.
  intros Hx Hy.
  destruct x as [sx | sx | | sx mx ex]; try discriminate;
  destruct y as [sy | sy | | sy my ey]; try discriminate;
  try destruct sx; try destruct sy; simpl; try (now rank_case).
  - change (Pos.compare_cont Eq mx my) with (Pos.compare mx my).
    destruct (Z.compare_spec ex ey) as [He | He | He];
      [destruct (Pos.compare_spec mx my) as [Hm | Hm | Hm] | |];
      simpl; rank_case.
  - change (Pos.compare_cont Eq mx my) with (Pos.compare mx my).
    destruct (Z.compare_spec ex ey) as [He | He | He];
      [destruct (Pos.compare_spec mx my) as [Hm | Hm | Hm] | |];
      simpl; rank_case.
Qed.

Lemma float_lt_not_nan (x y : float) :
  float_lt x y = true -> is_nan x = false /\ is_nan y = false.
Proof. destruct x, y; simpl; auto; discriminate. Qed.

Lemma float_le_not_nan (x y : float) :
  float_le x y = true -> is_nan x = false /\ is_nan y = false.
Proof. destruct x, y; simpl; auto; discriminate. Qed.

Lemma float_lt_iff (x y : float) :
  is_nan x = false -> is_nan y = false ->
  float_lt x y = true <-> rank_lt (float_rank x) (float_rank y).
Proof.
  intros Hx Hy.
  destruct (float_compare_rank x y Hx Hy) as (c & Hc & HLt & HEq & HGt).
  unfold float_lt, SFltb. rewrite Hc. rewrite <- HLt.
  destruct c; split; congruence.
Qed.

Lemma float_le_iff (x y : float) :
  is_nan x = false -> is_nan y = false ->
  float_le x y = true <->
  rank_lt (float_rank x) (float_rank y) \/ float_rank x = float_rank y.
Proof.
  intros Hx Hy.
  destruct (float_compare_rank x y Hx Hy) as (c & Hc & HLt & HEq & HGt).
  unfold float_le, SFleb. rewrite Hc. rewrite <- HLt, <- HEq.
  destruct c; split; intros H; auto; try discriminate;
    destruct H; discriminate.
Qed.


Lemma rank_lt_trans (a b c : Z * Z * Z) :
  rank_lt a b -> rank_lt b c -> rank_lt a c.
Proof.
  destruct a as [[a1 a2] a3], b as [[b1 b2] b3], c as [[c1 c2] c3].
  unfold rank_lt. lia.
Qed.

Lemma rank_lt_irrefl (a : Z * Z * Z) : ~ rank_lt a a.
Proof. destruct a as [[a1 a2] a3]. unfold rank_lt. lia. Qed.


Lemma verdict_gap (b : float) :
  float_le (float_lit 249 1) b = true ->
  float_lt b (float_of_Z 25) = true ->
  float_lt b (float_lit 185 1) = false /\
  float_lt b (float_lit 249 1) = false /\
  float_le (float_of_Z 25) b = false.
Proof.
  intros Hlo Hhi.
  destruct (float_le_not_nan _ _ Hlo) as [Hc Hb].
  destruct (float_lt_not_nan _ _ Hhi) as [_ Hc'].
  apply float_le_iff in Hlo; auto. apply float_lt_iff in Hhi; auto.
  assert (H185 : is_nan (float_lit 185 1) = false) by reflexivity.
  change (float_rank (float_lit 249 1)) with (1, -48, 7008726920095334) in Hlo.
  vm_compute (float_rank (float_of_Z 25)) in Hhi.
  repeat split.
  - destruct (float_lt b (float_lit 185 1)) eqn:E; auto.
    apply float_lt_iff in E; auto.
    vm_compute (float_rank (float_lit 185 1)) in E.
    destruct (float_rank b) as [[b1 b2] b3]. unfold rank_lt in *.
    destruct Hlo as [Hlo | Hlo]; [| injection Hlo; intros]; lia.
  - destruct (float_lt b (float_lit 249 1)) eqn:E; auto.
    apply float_lt_iff in E; auto.
    vm_compute (float_rank (float_lit 249 1)) in E.
    destruct (float_rank b) as [[b1 b2] b3]. unfold rank_lt in *.
    destruct Hlo as [Hlo | Hlo]; [| injection Hlo; intros]; lia.
  - destruct (float_le (float_of_Z 25) b) eqn:E; auto.
    apply float_le_iff in E; auto.
    vm_compute (float_rank (float_of_Z 25)) in E.
    destruct (float_rank b) as [[b1 b2] b3]. unfold rank_lt in *.
    destruct E as [E | E]; [| injection E; intros]; lia.
Qed.

(** ** Derived fields *)

Lemma verdict_defined (p : Patient.t) (b : float) :
  Patient.bmi p = ok b -> exists v, Patient.verdict p = ok v.
Proof.
  intros Hb. unfold Patient.verdict, rbind. rewrite Hb.
  unfold ok. cbv beta iota.
  destruct (float_lt b (float_lit 185 1)); eauto.
  destruct (float_le (float_lit 185 1) b && float_lt b (float_lit 249 1));
    eauto.
  destruct (float_le (float_of_Z 25) b && float_lt b (float_lit 299 1));
    eauto.
Qed.

(** The BMI exists exactly when the square of the height in metres is
    neither zero nor an overflow, whatever the weight. *)
Lemma bmi_eq (p : Patient.t) :
  Patient.bmi p =
  match float_pow2 (SFdiv prec emax (Patient.height p) (float_of_Z 100)) with
  | inl e => inl e
  | inr sq =>
      if is_zero sq then throw ZeroDivisionError
      else ok (round2 (SFdiv prec emax (Patient.weight p) sq))
  end.
Proof.
  unfold Patient.bmi, rbind, float_truediv. simpl.
  destruct (float_pow2 _) as [e | sq]; [reflexivity |].
  destruct (is_zero sq); reflexivity.
Qed.

(** Whatever the C library, a height that divided by 100 is zero makes
    the BMI raise. *)
Lemma bmi_raises_on_zero_metres (p : Patient.t) :
  is_zero (SFdiv prec emax (Patient.height p) (float_of_Z 100)) = true ->
  Patient.bmi p = throw ZeroDivisionError.
Proof.
  intros H. rewrite bmi_eq.
  destruct (SFdiv prec emax (Patient.height p) (float_of_Z 100));
    try discriminate.
  reflexivity.
Qed.

Lemma bmi_with_weight (p : Patient.t) (b w : float) :
  Patient.bmi p = ok b ->
  exists b', Patient.bmi (with_weight p w) = ok b'.
Proof.
  rewrite !bmi_eq. simpl.
  destruct (float_pow2 _) as [e | sq]; [discriminate |].
  destruct (is_zero sq); [discriminate | eauto].
Qed.

(** C2 (as amended). For every patient whose computed BMI lies in
    [24.9, 25), the three explicit conditions of [verdict] (Underweight,
    Normal weight, Overweight) all fail and the final [else] branch
    assigns the bucket Obesity: the value is classified, not left
    without a verdict. *)
Theorem verdict_between_249_and_25_is_obesity (p : Patient.t) (b : float) :
  Patient.bmi p = ok b ->
  float_le (float_lit 249 1) b = true ->
  float_lt b (float_of_Z 25) = true ->
  float_lt b (float_lit 185 1) = false /\
  (float_le (float_lit 185 1) b && float_lt b (float_lit 249 1)) = false /\
  (float_le (float_of_Z 25) b && float_lt b (float_lit 299 1)) = false /\
  Patient.verdict p = ok "Obesity".
Proof.
  intros Hb Hlo Hhi.
  destruct (verdict_gap b Hlo Hhi) as (H1 & H2 & H3).
  unfold Patient.verdict, rbind. rewrite Hb. unfold ok. cbv beta iota.
  rewrite H1, H2, H3, Bool.andb_false_r. auto.
Qed.

(** ** What is written to the file *)

(** C1 (as amended). The derived fields are persisted: after every
    successful create and every successful update the body stored under
    the id holds, in this order, name, city, age, gender, height, weight,
    bmi and verdict, the last two as computed when the record was written;
    a read by id returns the stored body as it is, without recomputing. *)
Theorem derived_fields_are_persisted :
  (forall p f resp f',
      create_patient p f = (ok resp, f') ->
      exists b v,
        Patient.bmi p = ok b /\ Patient.verdict p = ok v /\
        Dict.get (Patient.id p) f' = Some (record_body p b v) /\
        Dict.keys (record_body p b v) =
          ["name"; "city"; "age"; "gender"; "height"; "weight"; "bmi";
           "verdict"]) /\
  (forall patient_id u f resp f',
      update_patient patient_id u f = (ok resp, f') ->
      exists p b v,
        Patient.bmi p = ok b /\ Patient.verdict p = ok v /\
        Dict.get patient_id f' = Some (record_body p b v) /\
        Dict.keys (record_body p b v) =
          ["name"; "city"; "age"; "gender"; "height"; "weight"; "bmi";
           "verdict"]) /\
  (forall patient_id f body,
      Dict.get patient_id f = Some body ->
      view_patient patient_id f = (ok body, f)).
Proof.
  repeat split.
  - intros p f resp f' H.
    destruct (create_patient_success _ _ _ _ H) as (b & v & _ & Hb & Hv & -> & _).
    exists b, v. rewrite get_set_eq. auto.
  - intros patient_id u f resp f' H.
    destruct (update_patient_success _ _ _ _ _ H)
      as (ex & p & b & v & _ & _ & Hb & Hv & -> & _).
    exists p, b, v. rewrite get_set_eq. auto.
  - intros patient_id f body H. rewrite view_patient_eq. now rewrite H.
Qed.

(** C9. After every successful create and every successful update the
    body stored under the patient's id has no [id] entry: the identifier
    is only the key of the collection. *)
Theorem stored_body_has_no_id :
  (forall p f resp f',
      create_patient p f = (ok resp, f') ->
      exists body,
        Dict.get (Patient.id p) f' = Some body /\
        Dict.contains "id" body = false) /\
  (forall patient_id u f resp f',
      update_patient patient_id u f = (ok resp, f') ->
      exists body,
        Dict.get patient_id f' = Some body /\
        Dict.contains "id" body = false).
Proof.
  split.
  - intros p f resp f' H.
    destruct (create_patient_success _ _ _ _ H) as (b & v & _ & _ & _ & -> & _).
    exists (record_body p b v). rewrite get_set_eq. auto.
  - intros patient_id u f resp f' H.
    destruct (update_patient_success _ _ _ _ _ H)
      as (ex & p & b & v & _ & _ & _ & _ & -> & _).
    exists (record_body p b v). rewrite get_set_eq. auto.
Qed.

(** ** Validation *)

Lemma validate_gender_str (g : Patient.Gender) :
  Patient.validate_gender (PStr (Patient.gender_str g)) = inr g.
Proof. destruct g; reflexivity. Qed.

(** A body whose entries have the right types and meet the constraints
    validates to the patient with these fields; entries under other keys
    are ignored. *)
Lemma validate_fields (d : dict pyval) (p : Patient.t) :
  Dict.get "id" d = Some (PStr (Patient.id p)) ->
  Dict.get "name" d = Some (PStr (Patient.name p)) ->
  Dict.get "city" d = Some (PStr (Patient.city p)) ->
  Dict.get "age" d = Some (PInt (Patient.age p)) ->
  Dict.get "gender" d = Some (PStr (Patient.gender_str (Patient.gender p))) ->
  Dict.get "height" d = Some (PFloat (Patient.height p)) ->
  Dict.get "weight" d = Some (PFloat (Patient.weight p)) ->
  base_constraints p ->
  Patient.validate d = ok p.
Proof.
  intros Hi Hn Hc Ha Hg Hh Hw (Hage & Hheight & Hweight).
  unfold Patient.validate. rewrite Hi, Hn, Hc, Ha, Hg, Hh, Hw.
  unfold required, validate_str, validate_int, validate_float, int_gt, int_lt,
    float_gt0.
  rewrite validate_gender_str, Hheight, Hweight.
  replace (0 <? Patient.age p) with true by (symmetry; apply Z.ltb_lt; lia).
  replace (Patient.age p <? 120) with true by (symmetry; apply Z.ltb_lt; lia).
  destruct p; reflexivity.
Qed.

Lemma validate_sound (d : dict pyval) (p : Patient.t) :
  Patient.validate d = ok p -> base_constraints p.
Proof.
  unfold Patient.validate.
  destruct (required validate_str (Dict.get "id" d)) as [e | i];
    [discriminate |].
  destruct (required validate_str (Dict.get "name" d)) as [e | n];
    [discriminate |].
  destruct (required validate_str (Dict.get "city" d)) as [e | c];
    [discriminate |].
  destruct (int_lt 120 _) as [e | a] eqn:Ha; [discriminate |].
  destruct (required Patient.validate_gender _) as [e | g]; [discriminate |].
  destruct (float_gt0 (required validate_float (Dict.get "height" d)))
    as [e | h] eqn:Hh; [discriminate |].
  destruct (float_gt0 (required validate_float (Dict.get "weight" d)))
    as [e | w] eqn:Hw; [discriminate |].
  intros H. unfold ok in H. injection H as <-.
  unfold base_constraints. simpl.
  repeat split.
  - unfold int_lt, int_gt in Ha.
    destruct (required validate_int _) as [e | a0]; [discriminate |].
    destruct (0 <? a0) eqn:E; [| discriminate].
    destruct (a0 <? 120); [| discriminate].
    injection Ha as <-. now apply Z.ltb_lt.
  - unfold int_lt, int_gt in Ha.
    destruct (required validate_int _) as [e | a0]; [discriminate |].
    destruct (0 <? a0); [| discriminate].
    destruct (a0 <? 120) eqn:E; [| discriminate].
    injection Ha as <-. now apply Z.ltb_lt.
  - unfold float_gt0 in Hh.
    destruct (required validate_float (Dict.get "height" d)) as [e | h0];
      [discriminate |].
    destruct (float_lt (S754_zero false) h0) eqn:E; [| discriminate].
    now injection Hh as <-.
  - unfold float_gt0 in Hw.
    destruct (required validate_float (Dict.get "weight" d)) as [e | w0];
      [discriminate |].
    destruct (float_lt (S754_zero false) w0) eqn:E; [| discriminate].
    now injection Hw as <-.
Qed.

(** ** The prediction endpoint *)

(** C10. [predict] calls the classifier once on the six features.  When
    the call returns a label the answer is status 200 with the label under
    [response]; when the call raises, the answer is status 500 with the
    exception's message under [error].  The classifier is left in the
    state of that single call: there is no second attempt. *)
Theorem predict_response
    (model_state : Type)
    (predict_output :
       dict pyval -> model_state -> (string + string) * model_state)
    (data : Insurance.UserInput) (st : model_state) :
  let user_input :=
    [("bmi", Insurance.bmi data);
     ("age_group", Insurance.age_group data);
     ("lifestyle_risk", Insurance.lifestyle_risk data);
     ("city_tier", Insurance.city_tier data);
     ("income_lpa", Insurance.income_lpa data);
     ("occupation", Insurance.occupation data)] in
  (forall label st',
      predict_output user_input st = (inr label, st') ->
      Insurance.predict model_state predict_output data st =
        ({| status_code := 200; content := [("response", PStr label)] |},
         st')) /\
  (forall message st',
      predict_output user_input st = (inl message, st') ->
      Insurance.predict model_state predict_output data st =
        ({| status_code := 500; content := [("error", PStr message)] |},
         st')).
Proof.
  intros user_input. unfold Insurance.predict. fold user_input.
  split; intros x st' H; now rewrite H.
Qed.

(** ** Update *)

Lemma bmi_with_id (p : Patient.t) (i : string) :
  Patient.bmi (with_id p i) = Patient.bmi p.
Proof. reflexivity. Qed.

Lemma verdict_with_id (p : Patient.t) (i : string) :
  Patient.verdict (with_id p i) = Patient.verdict p.
Proof. reflexivity. Qed.

Lemma validate_age_too_large (d : dict pyval) (a : Z) :
  Dict.get "age" d = Some (PInt a) -> 120 <= a ->
  exists errors,
    Patient.validate d = throw (ValidationError errors) /\
    In ("age", "less_than") errors.
Proof.
  intros Hget Ha. unfold Patient.validate. rewrite Hget.
  change (required validate_int (Some (PInt a)))
    with (inr a : field_result Z).
  unfold int_gt, int_lt.
  replace (0 <? a) with true by (symmetry; apply Z.ltb_lt; lia).
  replace (a <? 120) with false by (symmetry; apply Z.ltb_ge; lia).
  destruct (required validate_str (Dict.get "id" d));
    destruct (required validate_str (Dict.get "name" d));
    destruct (required validate_str (Dict.get "city" d));
    destruct (required Patient.validate_gender (Dict.get "gender" d));
    destruct (float_gt0 (required validate_float (Dict.get "height" d)));
    destruct (float_gt0 (required validate_float (Dict.get "weight" d)));
    eexists; (split; [reflexivity |]); simpl; tauto.
Qed.

Lemma verdict_with_weight_defined (p : Patient.t) (b w : float) :
  Patient.bmi p = ok b ->
  exists b' v',
    Patient.bmi (with_weight p w) = ok b' /\
    Patient.verdict (with_weight p w) = ok v'.
Proof.
  intros Hb. destruct (bmi_with_weight p b w Hb) as [b' Hb'].
  destruct (verdict_defined _ _ Hb') as [v' Hv']. eauto.
Qed.

(** C5. On a record written by the program, an update that supplies only
    the weight succeeds, keeps the stored name, city, age, gender and
    height as they were, stores the new weight, and stores the bmi and the
    verdict computed from the new weight and the old height, which is what
    a read by id returns from then on. *)
Theorem weight_only_update_keeps_other_fields
    (patient_id : string) (f : file) (p : Patient.t) (b0 : float)
    (v0 : string) (w : float) :
  base_constraints p ->
  Patient.bmi p = ok b0 ->
  Patient.verdict p = ok v0 ->
  Dict.get patient_id f = Some (record_body p b0 v0) ->
  float_lt (S754_zero false) w = true ->
  exists b v,
    Patient.bmi (with_weight p w) = ok b /\
    Patient.verdict (with_weight p w) = ok v /\
    let body := record_body (with_weight p w) b v in
    let f' := Dict.set patient_id body f in
    put_update patient_id [("weight", PFloat w)] f =
      (ok (updated_response patient_id), f') /\
    update_patient patient_id (weight_only w) f =
      (ok (updated_response patient_id), f') /\
    Forall (fun k => Dict.get k body = Dict.get k (record_body p b0 v0))
      ["name"; "city"; "age"; "gender"; "height"] /\
    Dict.get "weight" body = Some (PFloat w) /\
    Dict.get "bmi" body = Some (PFloat b) /\
    Dict.get "verdict" body = Some (PStr v) /\
    view_patient patient_id f' = (ok body, f').
Proof.
  intros Hc Hb0 Hv0 Hget Hw.
  destruct (verdict_with_weight_defined p b0 w Hb0) as (b & v & Hb & Hv).
  exists b, v. split; [exact Hb |]. split; [exact Hv |]. cbv zeta.
  assert (Hupd : update_patient patient_id (weight_only w) f =
                 (ok (updated_response patient_id),
                  Dict.set patient_id (record_body (with_weight p w) b v) f)).
  { rewrite update_patient_eq, Hget. cbv zeta.
    assert (Hval :
      Patient.validate
        (Dict.set "id" (PStr patient_id)
           (Dict.update (record_body p b0 v0)
              (PatientUpdate.model_dump_exclude_unset (weight_only w))))
      = ok (with_id (with_weight p w) patient_id)).
    { apply validate_fields; try reflexivity.
      destruct Hc as (Ha & Hh & _). repeat split; auto; apply Ha. }
    rewrite Hval. unfold ok at 1. cbv beta iota.
    rewrite (model_dump_of_fields (with_id (with_weight p w) patient_id) b v)
      by (rewrite ?bmi_with_id, ?verdict_with_id; assumption).
    reflexivity. }
  repeat split.
  - unfold put_update, mbind, request_body, lift.
    unfold PatientUpdate.validate. simpl Dict.get.
    unfold optional, validate_float, PatientUpdate.optional_gt0_float,
      PatientUpdate.optional_gt0_int, validate_str, validate_int.
    rewrite Hw. exact Hupd.
  - exact Hupd.
  - repeat constructor.
  - rewrite view_patient_eq, get_set_eq. reflexivity.
Qed.

(** ** Sorting *)



Lemma float_le_trans (x y z : float) :
  float_le x y = true -> float_le y z = true -> float_le x z = true.
Proof.
  intros Hxy Hyz.
  destruct (float_le_not_nan _ _ Hxy) as [Hx Hy].
  destruct (float_le_not_nan _ _ Hyz) as [_ Hz].
  apply float_le_iff in Hxy; auto. apply float_le_iff in Hyz; auto.
  apply float_le_iff; auto.
  destruct Hxy as [Hxy | Hxy], Hyz as [Hyz | Hyz].
  - left. eapply rank_lt_trans; eauto.
  - left. now rewrite <- Hyz.
  - left. now rewrite Hxy.
  - right. congruence.
Qed.



Section SortedProperties.

Context {A : Type}.




End SortedProperties.


Section Linked.

Variable sort_by : string.




End Linked.





(** ** Create *)

(** A create whose id is present raises the 400 exception and leaves the
    file as it was. *)
Lemma create_patient_conflict (p : Patient.t) (f : file) :
  Dict.contains (Patient.id p) f = true ->
  create_patient p f =
    (throw (HTTPException 400 "Patient ID already exists"), f).
Proof. intros H. rewrite create_patient_eq. now rewrite H. Qed.

(** A create whose id is absent and whose derived fields are computed
    stores the dump under the id and answers 201 with the id. *)
Lemma create_patient_fresh (p : Patient.t) (f : file) (b : float)
    (v : string) :
  Dict.contains (Patient.id p) f = false ->
  Patient.bmi p = ok b -> Patient.verdict p = ok v ->
  create_patient p f =
    (ok (created_response (Patient.id p)),
     Dict.set (Patient.id p) (record_body p b v) f).
Proof.
  intros H Hb Hv. rewrite create_patient_eq, H.
  now rewrite (model_dump_of_fields p b v Hb Hv).
Qed.

(** ** More on dicts *)

Lemma get_none_not_in {V} (k : string) (d : dict V) :
  Dict.get k d = None <-> ~ In k (Dict.keys d).
Proof.
  induction d as [| [k0 v0] d IH]; simpl.
  - tauto.
  - destruct (String.eqb k k0) eqn:E.
    + apply String.eqb_eq in E. subst. split; [discriminate | tauto].
    + apply String.eqb_neq in E. rewrite IH. split; intros H.
      * intros [H' | H']; [congruence | tauto].
      * tauto.
Qed.

Lemma set_absent {V} (k : string) (v : V) (d : dict V) :
  Dict.get k d = None -> Dict.set k v d = (d ++ [(k, v)])%list.
Proof.
  induction d as [| [k0 v0] d IH]; simpl; auto.
  destruct (String.eqb k k0); [discriminate |].
  intros H. now rewrite IH.
Qed.

Lemma set_same {V} (k : string) (v : V) (d : dict V) :
  Dict.get k d = Some v -> Dict.set k v d = d.
Proof.
  induction d as [| [k0 v0] d IH]; simpl; [discriminate |].
  destruct (String.eqb k k0) eqn:E.
  - intros H. injection H as ->. reflexivity.
  - intros H. now rewrite IH.
Qed.

Lemma keys_set_present {V} (k : string) (v : V) (d : dict V) :
  Dict.contains k d = true -> Dict.keys (Dict.set k v d) = Dict.keys d.
Proof.
  unfold Dict.contains.
  induction d as [| [k0 v0] d IH]; simpl; [discriminate |].
  destruct (String.eqb k k0) eqn:E; simpl; auto.
  intros H. now rewrite IH.
Qed.

Lemma del_set_absent {V} (k : string) (v : V) (d : dict V) :
  Dict.get k d = None -> Dict.del k (Dict.set k v d) = d.
Proof.
  induction d as [| [k0 v0] d IH]; simpl.
  - now rewrite String.eqb_refl.
  - destruct (String.eqb k k0) eqn:E; [discriminate |].
    intros H. simpl. rewrite E. now rewrite IH.
Qed.

Lemma get_del_ne {V} (k k' : string) (d : dict V) :
  k <> k' -> Dict.get k' (Dict.del k d) = Dict.get k' d.
Proof.
  intros Hne. induction d as [| [k0 v0] d IH]; simpl; auto.
  destruct (String.eqb k k0) eqn:E; simpl.
  - apply String.eqb_eq in E. subst k0.
    destruct (String.eqb k' k) eqn:E'; auto.
    apply String.eqb_eq in E'. congruence.
  - now rewrite IH.
Qed.

Lemma keys_del_subset {V} (k k' : string) (d : dict V) :
  In k' (Dict.keys (Dict.del k d)) -> In k' (Dict.keys d).
Proof.
  induction d as [| [k0 v0] d IH]; simpl; auto.
  destruct (String.eqb k k0); simpl; tauto.
Qed.

Lemma get_del_eq {V} (k : string) (d : dict V) :
  NoDup (Dict.keys d) -> Dict.get k (Dict.del k d) = None.
Proof.
  induction d as [| [k0 v0] d IH]; simpl; auto.
  intros Hnd. inversion Hnd as [| ? ? Hnotin Hnd']; subst.
  destruct (String.eqb k k0) eqn:E; simpl.
  - apply String.eqb_eq in E. subst k0. now apply get_none_not_in.
  - rewrite E. auto.
Qed.

Lemma NoDup_keys_del {V} (k : string) (d : dict V) :
  NoDup (Dict.keys d) -> NoDup (Dict.keys (Dict.del k d)).
Proof.
  induction d as [| [k0 v0] d IH]; simpl; auto.
  intros Hnd. inversion Hnd as [| ? ? Hnotin Hnd']; subst.
  destruct (String.eqb k k0); simpl; auto.
  constructor; auto. intros Hin. apply Hnotin.
  now apply keys_del_subset in Hin.
Qed.

Lemma NoDup_keys_set {V} (k : string) (v : V) (d : dict V) :
  NoDup (Dict.keys d) -> NoDup (Dict.keys (Dict.set k v d)).
Proof.
  intros Hnd. destruct (Dict.get k d) as [v0 |] eqn:E.
  - rewrite keys_set_present; auto. unfold Dict.contains. now rewrite E.
  - rewrite set_absent; auto. unfold Dict.keys. rewrite map_app. simpl.
    apply NoDup_app; auto.
    + repeat constructor. simpl. tauto.
    + intros x Hin [<- | []]. now apply get_none_not_in in E.
Qed.

Lemma Forall_values_set {V} (P : V -> Prop) (k : string) (v : V)
    (d : dict V) :
  Forall P (Dict.values d) -> P v -> Forall P (Dict.values (Dict.set k v d)).
Proof.
  intros Hd Hv. induction d as [| [k0 v0] d IH]; simpl.
  - repeat constructor. exact Hv.
  - inversion Hd; subst.
    destruct (String.eqb k k0); simpl; constructor; auto.
Qed.

Lemma Forall_values_del {V} (P : V -> Prop) (k : string) (d : dict V) :
  Forall P (Dict.values d) -> Forall P (Dict.values (Dict.del k d)).
Proof.
  intros Hd. induction d as [| [k0 v0] d IH]; simpl; auto.
  inversion Hd; subst.
  destruct (String.eqb k k0); simpl; auto.
Qed.

Lemma delete_patient_eq (patient_id : string) (f : file) :
  delete_patient patient_id f =
  if Dict.contains patient_id f
  then (ok (deleted_response patient_id), Dict.del patient_id f)
  else (throw not_found, f).
Proof.
  unfold delete_patient, mbind, load_data, mraise, save_data, mret. simpl.
  destruct (Dict.contains patient_id f); reflexivity.
Qed.

(** ** What the handlers do to the file *)

(** The handlers that read ([view], [view_patient], [sort_patients])
    never change the file, whether they return or raise. *)
Theorem read_handlers_never_write
    (f : file) (patient_id sort_by order : string) :
  snd (view f) = f /\
  snd (view_patient patient_id f) = f /\
  snd (sort_patients sort_by order f) = f.
Proof.
  repeat split.
  - rewrite view_patient_eq. destruct (Dict.get patient_id f); reflexivity.
  - unfold sort_patients.
    destruct (negb (existsb (String.eqb sort_by) valid_fields));
      [reflexivity |].
    destruct (negb (existsb (String.eqb order) ["asc"; "desc"]));
      [reflexivity |].
    unfold mbind, load_data, lift, mret. cbv zeta. unfold ok at 1.
    cbv beta iota.
    destruct (sorted _ _ _); reflexivity.
Qed.

(** A handler that writes ([create_patient], [update_patient],
    [delete_patient]) and raises has not written: the file is as it was
    before the call. *)
Theorem raising_handlers_leave_file
    (p : Patient.t) (patient_id : string) (u : PatientUpdate.t) (f : file) :
  (forall e f', create_patient p f = (throw e, f') -> f' = f) /\
  (forall e f', update_patient patient_id u f = (throw e, f') -> f' = f) /\
  (forall e f', delete_patient patient_id f = (throw e, f') -> f' = f).
Proof.
  unfold throw. repeat split; intros e f'.
  - rewrite create_patient_eq.
    destruct (Dict.contains (Patient.id p) f); [congruence |].
    destruct (Patient.model_dump ["id"] p); [congruence | discriminate].
  - rewrite update_patient_eq.
    destruct (Dict.get patient_id f); [cbv zeta | congruence].
    destruct (Patient.validate _); [congruence |].
    destruct (Patient.model_dump ["id"] _); [congruence | discriminate].
  - rewrite delete_patient_eq.
    destruct (Dict.contains patient_id f); [discriminate | congruence].
Qed.

(** An id that is not in the file: reading it, updating it and deleting
    it all raise the same 404 exception and leave the file as it was. *)
Theorem unknown_id_is_not_found
    (patient_id : string) (u : PatientUpdate.t) (f : file) :
  Dict.contains patient_id f = false ->
  view_patient patient_id f = (throw not_found, f) /\
  update_patient patient_id u f = (throw not_found, f) /\
  delete_patient patient_id f = (throw not_found, f).
Proof.
  intros H. rewrite view_patient_eq, update_patient_eq, delete_patient_eq, H.
  apply contains_false in H. rewrite H. auto.
Qed.

(** Deleting an id of the file answers 200 and removes that record only:
    the id is not found afterwards and every other id reads as before. *)
Theorem delete_removes_one_record (patient_id : string) (f : file) :
  NoDup (Dict.keys f) ->
  Dict.contains patient_id f = true ->
  delete_patient patient_id f =
    (ok (deleted_response patient_id), Dict.del patient_id f) /\
  view_patient patient_id (Dict.del patient_id f) =
    (throw not_found, Dict.del patient_id f) /\
  (forall other,
      other <> patient_id ->
      view_patient other (Dict.del patient_id f) =
      (fst (view_patient other f), Dict.del patient_id f)).
Proof.
  intros Hnd Hin. rewrite delete_patient_eq, Hin. repeat split.
  - rewrite view_patient_eq, get_del_eq; auto.
  - intros other Hne. rewrite !view_patient_eq, get_del_ne by congruence.
    destruct (Dict.get other f); reflexivity.
Qed.

(** The three outcomes of a create.  An id of the file: the 400 exception
    and the file unchanged.  A new id whose dump raises: that exception
    and the file unchanged.  A new id otherwise: status 201 and the dump
    appended as the last record of the file. *)
Theorem create_patient_outcomes (p : Patient.t) (f : file) :
  (Dict.contains (Patient.id p) f = true ->
   create_patient p f =
     (throw (HTTPException 400 "Patient ID already exists"), f)) /\
  (forall e,
      Dict.contains (Patient.id p) f = false ->
      Patient.model_dump ["id"] p = throw e ->
      create_patient p f = (throw e, f)) /\
  (forall b v,
      Dict.contains (Patient.id p) f = false ->
      Patient.bmi p = ok b -> Patient.verdict p = ok v ->
      create_patient p f =
        (ok (created_response (Patient.id p)),
         (f ++ [(Patient.id p, record_body p b v)])%list)).
Proof.
  repeat split.
  - apply create_patient_conflict.
  - intros e H Hd. rewrite create_patient_eq, H, Hd. reflexivity.
  - intros b v H Hb Hv. rewrite (create_patient_fresh p f b v H Hb Hv).
    rewrite set_absent; auto. now apply contains_false.
Qed.

(** A create followed by the delete of the same id gives back the file
    the create started from. *)
Theorem create_then_delete_restores (p : Patient.t) (f f' : file)
    (resp : JSONResponse) :
  create_patient p f = (ok resp, f') ->
  delete_patient (Patient.id p) f' =
    (ok (deleted_response (Patient.id p)), f).
Proof.
  intros H.
  destruct (create_patient_success _ _ _ _ H) as (b & v & Hc & _ & _ & -> & _).
  rewrite delete_patient_eq.
  replace (Dict.contains (Patient.id p) (Dict.set (Patient.id p) _ f))
    with true
    by (symmetry; apply contains_true; eexists; apply get_set_eq).
  rewrite del_set_absent; auto. now apply contains_false.
Qed.

(** A successful update keeps every id at its place in the file and
    changes no record but the one updated. *)
Theorem update_keeps_other_records
    (patient_id : string) (u : PatientUpdate.t) (f f' : file)
    (resp : JSONResponse) :
  update_patient patient_id u f = (ok resp, f') ->
  Dict.keys f' = Dict.keys f /\
  (forall other,
      other <> patient_id -> Dict.get other f' = Dict.get other f).
Proof.
  intros H.
  destruct (update_patient_success _ _ _ _ _ H)
    as (ex & p & b & v & Hex & _ & _ & _ & -> & _).
  split.
  - apply keys_set_present. apply contains_true. eauto.
  - intros other Hne. apply get_set_ne. congruence.
Qed.

(** Ids stay unique and every stored body stays the dump of a patient
    that meets the base constraints: each of [create_patient] (on a
    validated patient), [update_patient] and [delete_patient] takes a
    well-formed file to a well-formed file, whether it returns or
    raises. *)
Theorem handlers_keep_file_well_formed
    (p : Patient.t) (patient_id : string) (u : PatientUpdate.t) (f : file) :
  well_formed_file f ->
  (base_constraints p -> well_formed_file (snd (create_patient p f))) /\
  well_formed_file (snd (update_patient patient_id u f)) /\
  well_formed_file (snd (delete_patient patient_id f)).
Proof.
  intros [Hnd Hrec]. repeat split.
  - rewrite create_patient_eq.
    destruct (Dict.contains (Patient.id p) f); [exact Hnd |].
    destruct (Patient.model_dump ["id"] p); [exact Hnd |].
    now apply NoDup_keys_set.
  - rewrite create_patient_eq.
    destruct (Dict.contains (Patient.id p) f); [exact Hrec |].
    destruct (Patient.model_dump ["id"] p) as [e | body] eqn:Hd;
      [exact Hrec |].
    destruct (model_dump_body _ _ Hd) as (b & v & Hb & Hv & ->).
    apply Forall_values_set; auto. exists p, b, v. auto.
  - rewrite update_patient_eq.
    destruct (Dict.get patient_id f); [cbv zeta | exact Hnd].
    destruct (Patient.validate _); [exact Hnd |].
    destruct (Patient.model_dump ["id"] _); [exact Hnd |].
    now apply NoDup_keys_set.
  - rewrite update_patient_eq.
    destruct (Dict.get patient_id f); [cbv zeta | exact Hrec].
    destruct (Patient.validate _) as [e | q] eqn:Hq; [exact Hrec |].
    destruct (Patient.model_dump ["id"] q) as [e | body] eqn:Hd;
      [exact Hrec |].
    destruct (model_dump_body _ _ Hd) as (b & v & Hb & Hv & ->).
    apply Forall_values_set; auto. exists q, b, v.
    repeat split; auto; apply (validate_sound _ _ Hq).
  - rewrite delete_patient_eq.
    destruct (Dict.contains patient_id f); [| exact Hnd].
    now apply NoDup_keys_del.
  - rewrite delete_patient_eq.
    destruct (Dict.contains patient_id f); [| exact Hrec].
    now apply Forall_values_del.
Qed.

(** ** Parameters of the sort *)

(** A [sort_by] outside height, weight, bmi raises the 400 exception that
    lists the valid fields, whatever [order] is; with a valid [sort_by],
    an [order] that is neither asc nor desc raises the 400 exception on
    the order.  In both cases the file is not read. *)
Theorem sort_patients_rejects_bad_parameters
    (sort_by order : string) (f : file) :
  (~ In sort_by ["height"; "weight"; "bmi"] ->
   sort_patients sort_by order f =
     (throw (HTTPException 400
               "Invalid field select from ['height', 'weight', 'bmi']"), f)) /\
  (In sort_by ["height"; "weight"; "bmi"] ->
   ~ In order ["asc"; "desc"] ->
   sort_patients sort_by order f =
     (throw (HTTPException 400 "Order must be 'asc' or 'desc'"), f)).
Proof.
  assert (existsb_in : forall (k : string) l,
             existsb (String.eqb k) l = true <-> In k l).
  { intros k l. rewrite existsb_exists. split.
    - intros (x & Hin & E). apply String.eqb_eq in E. now subst.
    - intros H. exists k. split; auto. apply String.eqb_refl. }
  split.
  - intros H. unfold sort_patients.
    destruct (existsb (String.eqb sort_by) valid_fields) eqn:E.
    + apply existsb_in in E. contradiction.
    + reflexivity.
  - intros H H'. unfold sort_patients.
    apply existsb_in in H. unfold valid_fields. rewrite H. cbn [negb].
    destruct (existsb (String.eqb order) ["asc"; "desc"]) eqn:E.
    + apply existsb_in in E. contradiction.
    + reflexivity.
Qed.

Lemma with_keys_missing (sort_by : string) (l : list (dict pyval)) :
  Exists (fun body => Dict.get sort_by body = None) l ->
  with_keys (fun x => Dict.getitem sort_by x) l = throw (KeyError sort_by).
Proof.
  induction l as [| body l IH]; intros H.
  - inversion H.
  - cbn [with_keys]. unfold Dict.getitem at 1.
    destruct (Dict.get sort_by body) as [k |] eqn:E.
    + inversion H as [? ? H' | ? ? H']; subst; [congruence |].
      rewrite (IH H'). reflexivity.
    + reflexivity.
Qed.

(** One record without the [sort_by] entry makes the sort raise
    [KeyError] on that key, whatever the other records hold, in either
    order. *)
Theorem sort_patients_missing_key
    (sort_by order : string) (f : file) :
  In sort_by ["height"; "weight"; "bmi"] ->
  In order ["asc"; "desc"] ->
  Exists (fun body => Dict.get sort_by body = None) (Dict.values f) ->
  sort_patients sort_by order f = (throw (KeyError sort_by), f).
Proof.
  intros Hby Hord Hmiss.
  assert (G1 : existsb (String.eqb sort_by) valid_fields = true).
  { simpl in Hby. destruct Hby as [<- | [<- | [<- | []]]]; reflexivity. }
  assert (G2 : existsb (String.eqb order) ["asc"; "desc"] = true).
  { simpl in Hord. destruct Hord as [<- | [<- | []]]; reflexivity. }
  unfold sort_patients. rewrite G1, G2. cbn [negb].
  unfold mbind, load_data, lift, mret. cbv zeta. unfold ok at 1.
  cbv beta iota. unfold sorted.
  rewrite (with_keys_missing sort_by _ Hmiss). reflexivity.
Qed.

(** ** Dump and validation *)

(** The dump of a patient that meets the base constraints validates back
    to the same patient; the stored body, which has no id, validates to
    the patient under whatever id is put back into it. *)
Theorem dump_then_validate (p : Patient.t) :
  base_constraints p ->
  (forall d, Patient.model_dump [] p = ok d -> Patient.validate d = ok p) /\
  (forall body i,
      Patient.model_dump ["id"] p = ok body ->
      Patient.validate (Dict.set "id" (PStr i) body) = ok (with_id p i)).
Proof.
  intros Hc. split.
  - unfold Patient.model_dump, rbind.
    destruct (Patient.bmi p) as [e | b]; [discriminate |].
    destruct (Patient.verdict p) as [e | v]; [discriminate |].
    intros d H. unfold ok in H. injection H as <-.
    apply validate_fields; auto; reflexivity.
  - intros body i Hd.
    destruct (model_dump_body _ _ Hd) as (b & v & _ & _ & ->).
    apply validate_fields; auto; reflexivity.
Qed.

Lemma validate_inv (d : dict pyval) (p : Patient.t) :
  Patient.validate d = ok p ->
  required validate_str (Dict.get "id" d) = inr (Patient.id p) /\
  required validate_str (Dict.get "name" d) = inr (Patient.name p) /\
  required validate_str (Dict.get "city" d) = inr (Patient.city p) /\
  int_lt 120 (int_gt 0 (required validate_int (Dict.get "age" d))) =
    inr (Patient.age p) /\
  required Patient.validate_gender (Dict.get "gender" d) =
    inr (Patient.gender p) /\
  float_gt0 (required validate_float (Dict.get "height" d)) =
    inr (Patient.height p) /\
  float_gt0 (required validate_float (Dict.get "weight" d)) =
    inr (Patient.weight p).
Proof.
  unfold Patient.validate.
  destruct (required validate_str (Dict.get "id" d)) as [e | i];
    [discriminate |].
  destruct (required validate_str (Dict.get "name" d)) as [e | n];
    [discriminate |].
  destruct (required validate_str (Dict.get "city" d)) as [e | c];
    [discriminate |].
  destruct (int_lt 120 _) as [e | a]; [discriminate |].
  destruct (required Patient.validate_gender _) as [e | g]; [discriminate |].
  destruct (float_gt0 (required validate_float (Dict.get "height" d)))
    as [e | h]; [discriminate |].
  destruct (float_gt0 (required validate_float (Dict.get "weight" d)))
    as [e | w]; [discriminate |].
  intros H. unfold ok in H. injection H as <-. simpl. repeat split.
Qed.

Lemma validate_raises_validation_error (d : dict pyval) (e : exn) :
  Patient.validate d = throw e -> exists errors, e = ValidationError errors.
Proof.
  unfold Patient.validate, throw.
  destruct (required validate_str (Dict.get "id" d));
  destruct (required validate_str (Dict.get "name" d));
  destruct (required validate_str (Dict.get "city" d));
  destruct (int_lt 120 _);
  destruct (required Patient.validate_gender _);
  destruct (float_gt0 (required validate_float (Dict.get "height" d)));
  destruct (float_gt0 (required validate_float (Dict.get "weight" d)));
  intros H; try discriminate; injection H as <-; eauto.
Qed.


(** A body that lacks one of the seven fields of Patient is refused, and
    the error list names that field as missing. *)
Theorem validate_reports_missing_field (d : dict pyval) (k : string) :
  In k ["id"; "name"; "city"; "age"; "gender"; "height"; "weight"] ->
  Dict.get k d = None ->
  exists errors,
    Patient.validate d = throw (ValidationError errors) /\
    In (k, "missing") errors.
Proof.
  intros Hk Hget. simpl in Hk.
  unfold Patient.validate.
  destruct Hk as [<- | [<- | [<- | [<- | [<- | [<- | [<- | []]]]]]]];
    rewrite Hget; cbn [required int_gt int_lt float_gt0];
    destruct (required validate_str (Dict.get "id" d));
    destruct (required validate_str (Dict.get "name" d));
    destruct (required validate_str (Dict.get "city" d));
    destruct (int_lt 120 (int_gt 0 (required validate_int (Dict.get "age" d))));
    destruct (required Patient.validate_gender (Dict.get "gender" d));
    destruct (float_gt0 (required validate_float (Dict.get "height" d)));
    destruct (float_gt0 (required validate_float (Dict.get "weight" d)));
    eexists; (split; [reflexivity |]); simpl; tauto.
Qed.

(** ** The verdict, bucket by bucket *)

Lemma verdict_eq (p : Patient.t) (b : float) :
  Patient.bmi p = ok b ->
  Patient.verdict p =
  ok (if float_lt b (float_lit 185 1) then "Underweight"
      else if float_le (float_lit 185 1) b && float_lt b (float_lit 249 1)
      then "Normal weight"
      else if float_le (float_of_Z 25) b && float_lt b (float_lit 299 1)
      then "Overweight"
      else "Obesity").
Proof.
  intros Hb. unfold Patient.verdict, rbind. rewrite Hb.
  unfold ok. cbv beta iota.
  destruct (float_lt b (float_lit 185 1)); auto.
  destruct (float_le (float_lit 185 1) b && float_lt b (float_lit 249 1));
    auto.
  destruct (float_le (float_of_Z 25) b && float_lt b (float_lit 299 1));
    auto.
Qed.

Lemma float_lt_false_of_le (c' c b : float) :
  float_le c' c = true -> float_le c b = true -> float_lt b c' = false.
Proof.
  intros H1 H2. pose proof (float_le_trans _ _ _ H1 H2) as H.
  destruct (float_le_not_nan _ _ H) as [Nc Nb].
  apply float_le_iff in H; auto.
  destruct (float_lt b c') eqn:E; auto.
  apply float_lt_iff in E; auto. exfalso.
  destruct H as [H | H].
  - apply (rank_lt_irrefl (float_rank b)). eapply rank_lt_trans; eauto.
  - rewrite H in E. now apply rank_lt_irrefl in E.
Qed.

(** When the BMI is computed, the verdict is computed too and is one of
    the four names.  It is Underweight below 18.5, Normal weight from 18.5
    to below 24.9, Overweight from 25 to below 29.9, and Obesity from 29.9
    on and for a BMI that is NaN. *)
Theorem verdict_by_range (p : Patient.t) (b : float) :
  Patient.bmi p = ok b ->
  (exists v, Patient.verdict p = ok v /\ In v verdicts) /\
  (float_lt b (float_lit 185 1) = true ->
   Patient.verdict p = ok "Underweight") /\
  (float_le (float_lit 185 1) b = true ->
   float_lt b (float_lit 249 1) = true ->
   Patient.verdict p = ok "Normal weight") /\
  (float_le (float_of_Z 25) b = true ->
   float_lt b (float_lit 299 1) = true ->
   Patient.verdict p = ok "Overweight") /\
  (float_le (float_lit 299 1) b = true ->
   Patient.verdict p = ok "Obesity") /\
  (is_nan b = true -> Patient.verdict p = ok "Obesity").
Proof.
  intros Hb. rewrite (verdict_eq p b Hb). repeat split.
  - eexists. split; [reflexivity |]. unfold verdicts.
    destruct (float_lt b (float_lit 185 1)); [simpl; tauto |].
    destruct (float_le (float_lit 185 1) b && float_lt b (float_lit 249 1));
      [simpl; tauto |].
    destruct (float_le (float_of_Z 25) b && float_lt b (float_lit 299 1));
      simpl; tauto.
  - intros H. now rewrite H.
  - intros Hlo Hhi.
    rewrite (float_lt_false_of_le (float_lit 185 1) (float_lit 185 1) b eq_refl
               Hlo).
    now rewrite Hlo, Hhi.
  - intros Hlo Hhi.
    rewrite (float_lt_false_of_le (float_lit 185 1) (float_of_Z 25) b eq_refl
               Hlo).
    rewrite (float_lt_false_of_le (float_lit 249 1) (float_of_Z 25) b eq_refl
               Hlo).
    rewrite Bool.andb_false_r. now rewrite Hlo, Hhi.
  - intros Hlo.
    rewrite (float_lt_false_of_le (float_lit 185 1) (float_lit 299 1) b eq_refl
               Hlo).
    rewrite (float_lt_false_of_le (float_lit 249 1) (float_lit 299 1) b eq_refl
               Hlo).
    rewrite (float_lt_false_of_le (float_lit 299 1) (float_lit 299 1) b eq_refl
               Hlo).
    now rewrite !Bool.andb_false_r.
  - intros Hn. destruct b; try discriminate. reflexivity.
Qed.

(** ** The sign of the BMI *)

Lemma binary_round_aux_sign (s : bool) (m e : Z) (l : location) :
  match binary_round_aux prec emax s m e l with
  | S754_nan => True
  | S754_zero s' | S754_infinity s' | S754_finite s' _ _ => s' = s
  end.
Proof.
  unfold binary_round_aux.
  destruct (shr_fexp prec emax m e l) as [mrs e'].
  destruct (shr_fexp prec emax _ e' loc_Exact) as [mrs' e''].
  destruct (shr_m mrs'); auto.
  match goal with |- context [if ?c then _ else _] => destruct c end; auto.
Qed.

Lemma SFdiv_sign (x y : float) :
  sign_clear x -> sign_clear y -> sign_clear (SFdiv prec emax x y).
Proof.
  destruct x as [sx | sx | | sx mx ex], y as [sy | sy | | sy my ey];
    intros Hx Hy; simpl in Hx, Hy; subst; try exact I; try reflexivity.
  unfold SFdiv.
  destruct (SFdiv_core_binary prec emax (Z.pos mx) ex (Z.pos my) ey)
    as [[mz ez] lz].
  pose proof (binary_round_aux_sign (xorb false false) mz ez lz) as H.
  unfold sign_clear.
  destruct (binary_round_aux prec emax (xorb false false) mz ez lz); auto.
Qed.

Lemma float_pow2_sign (x sq : float) :
  float_pow2 x = ok sq -> sign_clear sq.
Proof.
  unfold float_pow2, ok.
  destruct x as [s | s | | s m e];
    try (intros H; injection H as <-; simpl; auto).
  destruct (float_eq _ float_one).
  - intros H. injection H as <-. reflexivity.
  - destruct (is_inf _); [discriminate |].
    intros H. injection H as <-. apply libm_pow2_sign.
Qed.

Lemma round2_sign (x : float) : sign_clear x -> sign_clear (round2 x).
Proof.
  destruct x as [s | s | | s m e]; auto.
  intros Hs. simpl in Hs. subst s. unfold round2.
  match goal with
  | |- context [match ?n with Z0 => _ | Zpos _ => _ | Zneg _ => _ end] =>
      destruct n as [| q | q]
  end; try reflexivity.
  apply (SFdiv_sign (S754_finite false q 0) (S754_finite false 100 0));
    reflexivity.
Qed.

Lemma positive_sign (x : float) :
  float_lt (S754_zero false) x = true -> sign_clear x.
Proof. destruct x as [s | [|] | | [|] m e]; simpl; auto; discriminate. Qed.

(** The BMI of a patient that meets the base constraints, when it is
    computed, is never negative: it is NaN or has a clear sign bit, so it
    is not below zero. *)
Theorem bmi_is_not_negative (p : Patient.t) (b : float) :
  base_constraints p ->
  Patient.bmi p = ok b ->
  sign_clear b /\ float_lt b (S754_zero false) = false.
Proof.
  intros (_ & Hh & Hw) Hb. rewrite bmi_eq in Hb.
  destruct (float_pow2 _) as [e | sq] eqn:Hsq; [discriminate |].
  destruct (is_zero sq); [discriminate |].
  unfold ok in Hb. injection Hb as <-.
  assert (Hs : sign_clear (round2 (SFdiv prec emax (Patient.weight p) sq))).
  { apply round2_sign, SFdiv_sign.
    - now apply positive_sign.
    - now apply (float_pow2_sign _ _ Hsq). }
  split; [exact Hs |].
  destruct (round2 _) as [s | s | | s m e]; simpl in Hs; subst; reflexivity.
Qed.

(** ** The merge of an update *)

Lemma get_update_none {V} (k : string) (u d : dict V) :
  Dict.get k u = None -> Dict.get k (Dict.update d u) = Dict.get k d.
Proof.
  unfold Dict.update. revert d.
  induction u as [| [k0 v0] u IH]; intros d; simpl; auto.
  destruct (String.eqb k k0) eqn:E; [discriminate |].
  intros H. rewrite (IH _ H). apply get_set_ne.
  apply String.eqb_neq in E. congruence.
Qed.

Lemma get_update_some {V} (k : string) (v : V) (u d : dict V) :
  NoDup (Dict.keys u) -> Dict.get k u = Some v ->
  Dict.get k (Dict.update d u) = Some v.
Proof.
  unfold Dict.update. revert d.
  induction u as [| [k0 v0] u IH]; intros d Hnd; simpl; [discriminate |].
  inversion Hnd as [| ? ? Hnotin Hnd']; subst.
  destruct (String.eqb k k0) eqn:E.
  - intros H. injection H as ->. apply String.eqb_eq in E. subst k0.
    fold (Dict.update (Dict.set k v d) u).
    rewrite get_update_none by now apply get_none_not_in.
    apply get_set_eq.
  - intros H. now apply IH.
Qed.

Lemma dump_keys_NoDup (u : PatientUpdate.t) :
  NoDup (Dict.keys (PatientUpdate.model_dump_exclude_unset u)).
Proof.
  destruct u as [[[n |] |] [[c |] |] [[a |] |] [[g |] |] [[h |] |] [[w |] |]];
    simpl; repeat constructor; simpl; intuition discriminate.
Qed.

Lemma dump_has_null (u : PatientUpdate.t) :
  has_null u = true ->
  exists k,
    In k ["name"; "city"; "age"; "gender"; "height"; "weight"] /\
    Dict.get k (PatientUpdate.model_dump_exclude_unset u) = Some PNone.
Proof.
  destruct u as [[[n |] |] [[c |] |] [[a |] |] [[g |] |] [[h |] |] [[w |] |]];
    simpl; intros H; try discriminate;
    first [ exists "name"; split; [simpl; tauto | reflexivity]
          | exists "city"; split; [simpl; tauto | reflexivity]
          | exists "age"; split; [simpl; tauto | reflexivity]
          | exists "gender"; split; [simpl; tauto | reflexivity]
          | exists "height"; split; [simpl; tauto | reflexivity]
          | exists "weight"; split; [simpl; tauto | reflexivity] ].
Qed.

Lemma validate_null_field (d : dict pyval) (k : string) :
  In k ["name"; "city"; "age"; "gender"; "height"; "weight"] ->
  Dict.get k d = Some PNone ->
  exists errors, Patient.validate d = throw (ValidationError errors).
Proof.
  intros Hk Hget.
  destruct (Patient.validate d) as [e | p] eqn:Hv.
  - destruct (validate_raises_validation_error d e Hv) as [errors ->].
    eauto.
  - exfalso. destruct (validate_inv d p Hv) as (_ & Hn & Hc & Ha & Hg & Hh & Hw).
    simpl in Hk.
    destruct Hk as [<- | [<- | [<- | [<- | [<- | [<- | []]]]]]];
      rewrite Hget in *; discriminate.
Qed.

(** An update in which some field is given as null never succeeds on an
    id of the file: the null goes into the merged record, the Patient
    model refuses it with a validation error, and the file is unchanged.
    A null is not read as "leave the field as it is". *)
Theorem update_with_null_fails
    (patient_id : string) (u : PatientUpdate.t) (f : file) :
  Dict.contains patient_id f = true ->
  has_null u = true ->
  exists errors,
    update_patient patient_id u f = (throw (ValidationError errors), f).
Proof.
  intros Hin Hnull. apply contains_true in Hin. destruct Hin as [ex Hex].
  destruct (dump_has_null u Hnull) as (k & Hk & Hget).
  rewrite update_patient_eq, Hex. cbv zeta.
  destruct (validate_null_field
              (Dict.set "id" (PStr patient_id)
                 (Dict.update ex (PatientUpdate.model_dump_exclude_unset u)))
              k Hk) as [errors Herr].
  - rewrite get_set_ne.
    + apply get_update_some; auto. apply dump_keys_NoDup.
    + simpl in Hk. intuition (subst; discriminate).
  - rewrite Herr. unfold throw. eauto.
Qed.

Lemma merged_fields (p : Patient.t) (b0 : float) (v0 : string)
    (u : PatientUpdate.t) (i : string) :
  has_null u = false ->
  base_constraints (apply_update p u) ->
  Patient.validate
    (Dict.set "id" (PStr i)
       (Dict.update (record_body p b0 v0)
          (PatientUpdate.model_dump_exclude_unset u)))
  = ok (with_id (apply_update p u) i).
Proof.
  intros Hnull Hc.
  destruct u as [[[n |] |] [[c |] |] [[a |] |] [[g |] |] [[h |] |] [[w |] |]];
    try discriminate; apply validate_fields; auto; reflexivity.
Qed.

(** On a record written by the program, an update without null fields
    whose result meets the base constraints and has a computable BMI
    succeeds, and the stored body becomes the dump of the old patient with
    exactly the given fields replaced: fields the update leaves out keep
    their stored value, and bmi and verdict are those of the result. *)
Theorem update_replaces_given_fields
    (patient_id : string) (f : file) (p : Patient.t) (b0 : float)
    (v0 : string) (u : PatientUpdate.t) (b : float) (v : string) :
  Dict.get patient_id f = Some (record_body p b0 v0) ->
  has_null u = false ->
  base_constraints (apply_update p u) ->
  Patient.bmi (apply_update p u) = ok b ->
  Patient.verdict (apply_update p u) = ok v ->
  update_patient patient_id u f =
    (ok (updated_response patient_id),
     Dict.set patient_id (record_body (apply_update p u) b v) f).
Proof.
  intros Hget Hnull Hc Hb Hv.
  rewrite update_patient_eq, Hget. cbv zeta.
  rewrite (merged_fields p b0 v0 u patient_id Hnull Hc).
  unfold ok at 1. cbv beta iota.
  rewrite (model_dump_of_fields (with_id (apply_update p u) patient_id) b v)
    by (rewrite ?bmi_with_id, ?verdict_with_id; assumption).
  reflexivity.
Qed.

(** An update that sets no field, on a record written by the program,
    answers 200 and leaves the file exactly as it was. *)
Theorem empty_update_changes_nothing
    (patient_id : string) (f : file) (p : Patient.t) (b : float)
    (v : string) :
  base_constraints p ->
  Patient.bmi p = ok b ->
  Patient.verdict p = ok v ->
  Dict.get patient_id f = Some (record_body p b v) ->
  PatientUpdate.validate [] = ok empty_update /\
  update_patient patient_id empty_update f =
    (ok (updated_response patient_id), f).
Proof.
  intros Hc Hb Hv Hget. split; [reflexivity |].
  assert (Hp : apply_update p empty_update = p) by (destruct p; reflexivity).
  rewrite update_patient_eq, Hget. cbv zeta.
  rewrite (merged_fields p b v empty_update patient_id eq_refl)
    by (rewrite Hp; exact Hc).
  unfold ok at 1. cbv beta iota. rewrite Hp.
  rewrite (model_dump_of_fields (with_id p patient_id) b v)
    by (rewrite ?bmi_with_id, ?verdict_with_id; assumption).
  unfold ok at 1. cbv beta iota.
  change (record_body (with_id p patient_id) b v) with (record_body p b v).
  now rewrite (set_same patient_id (record_body p b v) f Hget).
Qed.

(** ** The partial validation of PatientUpdate *)




(** ** Re-validation on update and create of empty names *)

(** C4. An update of a record of the file merges the fields of the
    request onto the stored body (a field the request sets takes the
    request's value, every other entry keeps the stored one) and validates
    the merged record against the full Patient model before anything is
    saved.  If that validation fails, the update raises its error and the
    file is unchanged.  If it succeeds, the merged record meets the base
    constraints and its dump is what replaces the stored body; a
    successful update has stored nothing else.  A merged age outside
    1..119, or a merged height or weight that is not above zero, makes the
    update fail with a validation error and the file unchanged; an age of
    120 or more passes the partial validation of PatientUpdate and then
    fails in this way. *)
Theorem update_revalidates_merged_record
    (patient_id : string) (u : PatientUpdate.t) (f : file)
    (existing : dict pyval) :
  Dict.get patient_id f = Some existing ->
  let merged :=
    Dict.set "id" (PStr patient_id)
      (Dict.update existing (PatientUpdate.model_dump_exclude_unset u)) in
  (forall k,
      k <> "id" ->
      Dict.get k merged =
      match Dict.get k (PatientUpdate.model_dump_exclude_unset u) with
      | Some v => Some v
      | None => Dict.get k existing
      end) /\
  (forall e,
      Patient.validate merged = throw e ->
      update_patient patient_id u f = (throw e, f)) /\
  (forall p,
      Patient.validate merged = ok p ->
      base_constraints p /\
      (forall b v,
          Patient.bmi p = ok b -> Patient.verdict p = ok v ->
          update_patient patient_id u f =
            (ok (updated_response patient_id),
             Dict.set patient_id (record_body p b v) f)) /\
      (forall e,
          Patient.model_dump ["id"] p = throw e ->
          update_patient patient_id u f = (throw e, f))) /\
  (forall resp f',
      update_patient patient_id u f = (ok resp, f') ->
      exists p b v,
        Patient.validate merged = ok p /\ base_constraints p /\
        Patient.bmi p = ok b /\ Patient.verdict p = ok v /\
        resp = updated_response patient_id /\
        f' = Dict.set patient_id (record_body p b v) f) /\
  (forall a,
      Dict.get "age" merged = Some (PInt a) ->
      a <= 0 \/ 120 <= a ->
      exists errors,
        update_patient patient_id u f = (throw (ValidationError errors), f)) /\
  (forall k x,
      k = "height" \/ k = "weight" ->
      Dict.get k merged = Some (PFloat x) ->
      float_lt (S754_zero false) x = false ->
      exists errors,
        update_patient patient_id u f = (throw (ValidationError errors), f)) /\
  (forall a,
      120 <= a ->
      PatientUpdate.validate [("age", PInt a)] = ok (age_only a) /\
      exists errors,
        update_patient patient_id (age_only a) f =
          (throw (ValidationError errors), f) /\
        In ("age", "less_than") errors).
Proof.
  intros Hex merged.
  assert (Hfail : forall e,
             Patient.validate merged = throw e ->
             update_patient patient_id u f = (throw e, f)).
  { intros e He. rewrite update_patient_eq, Hex. cbv zeta.
    fold merged. now rewrite He. }
  assert (Hbad : (forall p, Patient.validate merged = ok p -> False) ->
                 exists errors,
                   update_patient patient_id u f =
                     (throw (ValidationError errors), f)).
  { intros Hno. destruct (Patient.validate merged) as [e | p] eqn:Hv.
    - destruct (validate_raises_validation_error merged e Hv)
        as [errors ->].
      exists errors. now apply Hfail.
    - exfalso. now apply (Hno p). }
  repeat apply conj; [| exact Hfail | | | | |].
  - intros k Hk. unfold merged. rewrite get_set_ne by congruence.
    destruct (Dict.get k (PatientUpdate.model_dump_exclude_unset u))
      as [v |] eqn:E.
    + apply get_update_some; auto. apply dump_keys_NoDup.
    + now apply get_update_none.
  - intros p Hv. split; [apply (validate_sound _ _ Hv) |]. split.
    + intros b v Hb Hvd. rewrite update_patient_eq, Hex. cbv zeta.
      fold merged. rewrite Hv. unfold ok at 1. cbv beta iota.
      now rewrite (model_dump_of_fields p b v Hb Hvd).
    + intros e He. rewrite update_patient_eq, Hex. cbv zeta.
      fold merged. rewrite Hv. unfold ok at 1. cbv beta iota.
      now rewrite He.
  - intros resp f' H.
    destruct (update_patient_success _ _ _ _ _ H)
      as (ex & p & b & v & Hex' & Hv & Hb & Hvd & -> & _).
    rewrite Hex in Hex'. injection Hex' as <-. fold merged in Hv.
    exists p, b, v. repeat split; auto; try apply (validate_sound _ _ Hv).
    rewrite update_patient_eq, Hex in H. cbv zeta in H. fold merged in H.
    rewrite Hv in H. unfold ok at 1 in H. cbv beta iota in H.
    rewrite (model_dump_of_fields p b v Hb Hvd) in H.
    unfold ok in H. injection H as Hr. now rewrite <- Hr.
  - intros a Hget Ha. apply Hbad. intros p Hv.
    destruct (validate_inv _ _ Hv) as (_ & _ & _ & Hage & _).
    destruct (validate_sound _ _ Hv) as (Hc & _).
    rewrite Hget in Hage. simpl in Hage. unfold int_gt, int_lt in Hage.
    destruct (0 <? a) eqn:E1; [| discriminate].
    destruct (a <? 120) eqn:E2; [| discriminate].
    apply Z.ltb_lt in E1, E2. lia.
  - intros k x Hk Hget Hx. apply Hbad. intros p Hv.
    destruct (validate_inv _ _ Hv) as (_ & _ & _ & _ & _ & Hh & Hw).
    destruct Hk as [-> | ->]; [rewrite Hget in Hh | rewrite Hget in Hw];
      simpl in *; unfold float_gt0 in *.
    + rewrite Hx in Hh. discriminate.
    + rewrite Hx in Hw. discriminate.
  - intros a Ha. split.
    + unfold PatientUpdate.validate. simpl.
      replace (0 <? a) with true by (symmetry; apply Z.ltb_lt; lia).
      reflexivity.
    + rewrite update_patient_eq, Hex. cbv zeta.
      destruct (validate_age_too_large
                  (Dict.set "id" (PStr patient_id)
                     (Dict.update existing
                        (PatientUpdate.model_dump_exclude_unset (age_only a))))
                  a) as (errors & Herr & Hin); auto.
      * rewrite get_set_ne by discriminate. simpl. apply get_set_eq.
      * rewrite Herr. unfold throw. eauto.
Qed.


End Properties.

(** * Closed facts

    Witnesses, counterexamples and the evaluations at failing inputs,
    computed with [reference_libm] and [decimal_strings].  Heights of
    100 cm never reach the C library ([1.0 ** 2] is settled before); the
    squares it computes below are those of 1.755, 1.8 and 1e-202. *)

Lemma verdict_between_249_and_25_witness :
  Patient.verdict gap_patient = ok "Obesity".
Proof.
  pose proof (verdict_between_249_and_25_is_obesity gap_patient (float_lit 2495 2))
    as Hthm; apply Hthm; clear Hthm;
    vm_compute; reflexivity.
Defined.

(** At 100 cm and 24.95 kg the BMI is 24.95, inside [24.9, 25), and the
    verdict is the bucket Obesity. *)
Lemma verdict_gap_counterexample :
  float_lt (S754_zero false) (Patient.height gap_patient) = true /\
  float_lt (S754_zero false) (Patient.weight gap_patient) = true /\
  Patient.bmi gap_patient = ok (float_lit 2495 2) /\
  float_le (float_lit 249 1) (float_lit 2495 2) = true /\
  float_lt (float_lit 2495 2) (float_of_Z 25) = true /\
  Patient.verdict gap_patient = ok "Obesity".
Proof. vm_compute. repeat split. Qed.

Lemma derived_fields_are_persisted_witness :
  exists b v,
    Patient.bmi john = ok b /\ Patient.verdict john = ok v /\
    Dict.get "P001" (snd (create_patient john [])) =
      Some (record_body john b v) /\
    Dict.keys (record_body john b v) =
      ["name"; "city"; "age"; "gender"; "height"; "weight"; "bmi"; "verdict"].
Proof.
  pose proof (proj1 derived_fields_are_persisted john []
           (match fst (create_patient john []) with
            | inr resp => resp
            | inl _ => {| status_code := 0; content := [] |}
            end))
    as Hthm; apply Hthm; clear Hthm.
  vm_compute. reflexivity.
Defined.

(** Creating the documentation's patient in an empty file stores a body
    with a bmi and a verdict entry, and the read by id returns them. *)
Lemma derived_fields_stored_counterexample :
  snd (create_patient john []) =
    [("P001",
      [("name", PStr "John Doe"); ("city", PStr "New York");
       ("age", PInt 30); ("gender", PStr "male");
       ("height", PFloat (float_lit 1755 1));
       ("weight", PFloat (float_lit 702 1));
       ("bmi", PFloat (float_lit 2279 2));
       ("verdict", PStr "Normal weight")])] /\
  http_status (fst (create_patient john [])) = 201 /\
  option_map (Dict.get "bmi")
    (Dict.get "P001" (snd (create_patient john []))) =
    Some (Some (PFloat (float_lit 2279 2))) /\
  fst (view_patient "P001" (snd (create_patient john []))) =
    ok [("name", PStr "John Doe"); ("city", PStr "New York");
        ("age", PInt 30); ("gender", PStr "male");
        ("height", PFloat (float_lit 1755 1));
        ("weight", PFloat (float_lit 702 1));
        ("bmi", PFloat (float_lit 2279 2));
        ("verdict", PStr "Normal weight")].
Proof. vm_compute. repeat split. Qed.

Lemma stored_body_has_no_id_witness :
  exists body,
    Dict.get "P001"
      (snd (update_patient "P001" (weight_only (float_of_Z 80))
              (snd (create_patient john [])))) = Some body /\
    Dict.contains "id" body = false.
Proof.
  pose proof (proj2 stored_body_has_no_id "P001" (weight_only (float_of_Z 80))
           (snd (create_patient john []))
           {| status_code := 200;
              content := [("message", PStr "Patient updated successfully");
                          ("patient_id", PStr "P001")] |})
    as Hthm; apply Hthm; clear Hthm.
  vm_compute. reflexivity.
Defined.



Lemma predict_response_witness :
  Insurance.predict nat flaky_classifier sample_input 0%nat =
    ({| status_code := 500;
        content := [("error", PStr "model not fitted")] |}, 1%nat) /\
  Insurance.predict nat flaky_classifier sample_input 1%nat =
    ({| status_code := 200; content := [("response", PStr "High")] |},
     2%nat).
Proof.
  split.
  - pose proof (proj2 (predict_response nat flaky_classifier sample_input 0%nat))
    as Hthm; apply Hthm; clear Hthm.
    reflexivity.
  - pose proof (proj1 (predict_response nat flaky_classifier sample_input 1%nat))
    as Hthm; apply Hthm; clear Hthm.
    reflexivity.
Defined.

Lemma update_revalidates_merged_record_witness :
  update_patient "P001" (weight_only (float_of_Z 80))
    (snd (create_patient john [])) =
    (ok (updated_response "P001"),
     Dict.set "P001"
       (record_body (with_weight john (float_of_Z 80)) (float_lit 2597 2)
          "Overweight")
       (snd (create_patient john []))) /\
  (PatientUpdate.validate [("age", PInt 150)] = ok (age_only 150) /\
   exists errors,
     update_patient "P001" (age_only 150) (snd (create_patient john [])) =
       (throw (ValidationError errors), snd (create_patient john [])) /\
     In ("age", "less_than") errors).
Proof.
  split.
  - destruct (update_revalidates_merged_record "P001"
                (weight_only (float_of_Z 80)) (snd (create_patient john []))
                (record_body john (float_lit 2279 2) "Normal weight"))
      as (_ & _ & Hok & _); [vm_compute; reflexivity |].
    destruct (Hok (with_weight john (float_of_Z 80)))
      as (_ & Hstore & _); [vm_compute; reflexivity |].
    pose proof (Hstore (float_lit 2597 2) "Overweight")
    as Hthm; apply Hthm; clear Hthm; vm_compute; reflexivity.
  - destruct (update_revalidates_merged_record "P001" (age_only 150)
                (snd (create_patient john []))
                (record_body john (float_lit 2279 2) "Normal weight"))
      as (_ & _ & _ & _ & _ & _ & Hage); [vm_compute; reflexivity |].
    pose proof (Hage 150)
    as Hthm; apply Hthm; clear Hthm. lia.
Defined.

Lemma weight_only_update_witness :
  exists b v,
    Patient.bmi (with_weight john (float_of_Z 80)) = ok b /\
    Patient.verdict (with_weight john (float_of_Z 80)) = ok v /\
    let body := record_body (with_weight john (float_of_Z 80)) b v in
    let f' := Dict.set "P001" body (snd (create_patient john [])) in
    put_update "P001" [("weight", PFloat (float_of_Z 80))]
      (snd (create_patient john [])) =
      (ok (updated_response "P001"), f') /\
    update_patient "P001" (weight_only (float_of_Z 80))
      (snd (create_patient john [])) =
      (ok (updated_response "P001"), f') /\
    Forall (fun k =>
              Dict.get k body =
              Dict.get k (record_body john (float_lit 2279 2) "Normal weight"))
      ["name"; "city"; "age"; "gender"; "height"] /\
    Dict.get "weight" body = Some (PFloat (float_of_Z 80)) /\
    Dict.get "bmi" body = Some (PFloat b) /\
    Dict.get "verdict" body = Some (PStr v) /\
    view_patient "P001" f' = (ok body, f').
Proof.
  pose proof (weight_only_update_keeps_other_fields "P001"
           (snd (create_patient john [])) john (float_lit 2279 2)
           "Normal weight" (float_of_Z 80))
    as Hthm; apply Hthm; clear Hthm.
  - unfold base_constraints. simpl. repeat split; try lia; reflexivity.
  - vm_compute. reflexivity.
  - vm_compute. reflexivity.
  - vm_compute. reflexivity.
  - vm_compute. reflexivity.
Defined.


Example sort_by_bmi_desc :
  fst (sort_patients "bmi" "desc" three_patients) =
    ok [record_body (patient_of_weight "B" 30) (float_of_Z 30) "Obesity";
        record_body (patient_of_weight "C" 22) (float_of_Z 22)
          "Normal weight";
        record_body (patient_of_weight "A" 18) (float_of_Z 18)
          "Underweight"].
Proof. vm_compute. reflexivity. Qed.

(** Two records of equal weight keep their order in the file, also when
    the order is descending. *)
Example sort_desc_keeps_ties_in_order :
  let data :=
    snd (create_patient (patient_of_weight "C" 22)
           (snd (create_patient (patient_of_weight "B" 30)
                   (snd (create_patient (patient_of_weight "A" 22) [])))))
  in
  option_map (map (Dict.get "name"))
    (match fst (sort_patients "weight" "desc" data) with
     | inr l => Some l
     | inl _ => None
     end) =
  option_map (map (Dict.get "name"))
    (Some [record_body (patient_of_weight "B" 30) (float_of_Z 30) "Obesity";
           record_body (patient_of_weight "A" 22) (float_of_Z 22)
             "Normal weight";
           record_body (patient_of_weight "C" 22) (float_of_Z 22)
             "Normal weight"]).
Proof. vm_compute. reflexivity. Qed.

(** ** Heights whose square underflows *)

(** C6. A height of 1e-200 cm passes [gt=0]; divided by 100 and squared
    it is 0.0, and the division of the weight by it raises
    [ZeroDivisionError]: for this valid height and weight no BMI is
    computed. *)
Theorem bmi_raises_on_tiny_height :
  base_constraints tiny_height_patient /\
  float_pow2 (SFdiv prec emax (Patient.height tiny_height_patient)
                (float_of_Z 100)) = ok (S754_zero false) /\
  Patient.bmi tiny_height_patient = throw ZeroDivisionError.
Proof.
  unfold base_constraints. simpl Patient.age.
  repeat split; try lia; vm_compute; reflexivity.
Qed.

(** C7. The id of the patient of height 1e-200 cm is absent from the empty
    file, and the create handler raises [ZeroDivisionError] while dumping
    the record: the answer is status 500 and nothing is persisted. *)
Theorem create_raises_on_tiny_height :
  Dict.contains (Patient.id tiny_height_patient) ([] : file) = false /\
  create_patient tiny_height_patient [] = (throw ZeroDivisionError, []) /\
  http_status (fst (create_patient tiny_height_patient [])) = 500.
Proof. vm_compute. repeat split. Qed.

Lemma raising_handlers_leave_file_witness :
  snd (create_patient john (snd (create_patient john []))) =
  snd (create_patient john []).
Proof.
  symmetry.
  pose proof (proj1 (raising_handlers_leave_file john "P001" (weight_only nan)
                  (snd (create_patient john [])))
           (HTTPException 400 "Patient ID already exists"))
    as Hthm; apply Hthm; clear Hthm.
  vm_compute. reflexivity.
Defined.

Lemma unknown_id_is_not_found_witness :
  view_patient "P009" (snd (create_patient john [])) =
    (throw not_found, snd (create_patient john [])) /\
  update_patient "P009" (weight_only (float_of_Z 80))
    (snd (create_patient john [])) =
    (throw not_found, snd (create_patient john [])) /\
  delete_patient "P009" (snd (create_patient john [])) =
    (throw not_found, snd (create_patient john [])).
Proof.
  pose proof (unknown_id_is_not_found "P009" (weight_only (float_of_Z 80))
           (snd (create_patient john [])))
    as Hthm; apply Hthm; clear Hthm.
  vm_compute. reflexivity.
Defined.

Lemma delete_removes_one_record_witness :
  delete_patient "B" three_patients =
    (ok (deleted_response "B"), Dict.del "B" three_patients) /\
  view_patient "B" (Dict.del "B" three_patients) =
    (throw not_found, Dict.del "B" three_patients) /\
  (forall other,
      other <> "B" ->
      view_patient other (Dict.del "B" three_patients) =
      (fst (view_patient other three_patients), Dict.del "B" three_patients)).
Proof.
  pose proof (delete_removes_one_record "B" three_patients)
    as Hthm; apply Hthm; clear Hthm.
  - vm_compute (Dict.keys three_patients).
    repeat constructor; simpl; intuition discriminate.
  - vm_compute. reflexivity.
Defined.

Lemma create_patient_outcomes_witness :
  create_patient john (snd (create_patient john [])) =
    (throw (HTTPException 400 "Patient ID already exists"),
     snd (create_patient john [])) /\
  create_patient tiny_height_patient (snd (create_patient john [])) =
    (throw ZeroDivisionError, snd (create_patient john [])) /\
  create_patient gap_patient (snd (create_patient john [])) =
    (ok (created_response "P002"),
     (snd (create_patient john []) ++
      [("P002", record_body gap_patient (float_lit 2495 2) "Obesity")])%list).
Proof.
  split; [| split].
  - pose proof (proj1 (create_patient_outcomes john
                    (snd (create_patient john []))))
    as Hthm; apply Hthm; clear Hthm.
    vm_compute. reflexivity.
  - pose proof (proj1 (proj2 (create_patient_outcomes tiny_height_patient
                           (snd (create_patient john [])))))
    as Hthm; apply Hthm; clear Hthm.
    + vm_compute. reflexivity.
    + vm_compute. reflexivity.
  - pose proof (proj2 (proj2 (create_patient_outcomes gap_patient
                           (snd (create_patient john []))))
             (float_lit 2495 2) "Obesity")
    as Hthm; apply Hthm; clear Hthm.
    + vm_compute. reflexivity.
    + vm_compute. reflexivity.
    + vm_compute. reflexivity.
Defined.

Lemma create_then_delete_restores_witness :
  delete_patient "P001" (snd (create_patient john [])) =
    (ok (deleted_response "P001"), []).
Proof.
  pose proof (create_then_delete_restores john [] (snd (create_patient john []))
           (created_response "P001"))
    as Hthm; apply Hthm; clear Hthm.
  vm_compute. reflexivity.
Defined.

Lemma update_keeps_other_records_witness :
  Dict.keys (snd (update_patient "B" (weight_only (float_of_Z 80))
                    three_patients)) = Dict.keys three_patients /\
  (forall other,
      other <> "B" ->
      Dict.get other
        (snd (update_patient "B" (weight_only (float_of_Z 80))
                three_patients)) = Dict.get other three_patients).
Proof.
  pose proof (update_keeps_other_records "B" (weight_only (float_of_Z 80))
           three_patients
           (snd (update_patient "B" (weight_only (float_of_Z 80))
                   three_patients))
           (updated_response "B"))
    as Hthm; apply Hthm; clear Hthm.
  vm_compute. reflexivity.
Defined.

Lemma handlers_keep_file_well_formed_witness :
  well_formed_file (snd (create_patient john [])).
Proof.
  pose proof (proj1 (handlers_keep_file_well_formed john "P001"
                  (weight_only nan) []
                  (conj (NoDup_nil string) (Forall_nil written_record))))
    as Hthm; apply Hthm; clear Hthm.
  unfold base_constraints. simpl Patient.age.
  repeat split; try lia; vm_compute; reflexivity.
Defined.

Lemma sort_patients_rejects_bad_parameters_witness :
  sort_patients "age" "asc" three_patients =
    (throw (HTTPException 400
              "Invalid field select from ['height', 'weight', 'bmi']"),
     three_patients) /\
  sort_patients "bmi" "down" three_patients =
    (throw (HTTPException 400 "Order must be 'asc' or 'desc'"),
     three_patients).
Proof.
  split.
  - pose proof (proj1 (sort_patients_rejects_bad_parameters "age" "asc"
                    three_patients))
    as Hthm; apply Hthm; clear Hthm.
    simpl. intuition discriminate.
  - pose proof (proj2 (sort_patients_rejects_bad_parameters "bmi" "down"
                    three_patients))
    as Hthm; apply Hthm; clear Hthm.
    + simpl. auto.
    + simpl. intuition discriminate.
Defined.

Lemma sort_patients_missing_key_witness :
  sort_patients "bmi" "asc" file_with_partial_record =
    (throw (KeyError "bmi"), file_with_partial_record).
Proof.
  pose proof (sort_patients_missing_key "bmi" "asc")
    as Hthm; apply Hthm; clear Hthm.
  - simpl. auto.
  - simpl. auto.
  - unfold file_with_partial_record, Dict.values. rewrite map_app. apply Exists_app. right.
    constructor. reflexivity.
Defined.

Lemma dump_then_validate_witness :
  Patient.validate
    (Dict.set "id" (PStr "P777")
       (record_body john (float_lit 2279 2) "Normal weight")) =
  ok (with_id john "P777").
Proof.
  destruct (dump_then_validate john) as [_ Hbody].
  - unfold base_constraints. simpl Patient.age.
    repeat split; try lia; vm_compute; reflexivity.
  - apply (Hbody (record_body john (float_lit 2279 2) "Normal weight")
             "P777").
    vm_compute. reflexivity.
Defined.


Lemma validate_reports_missing_field_witness :
  exists errors,
    Patient.validate [("id", PStr "P1"); ("name", PStr "N")] =
      throw (ValidationError errors) /\
    In ("weight", "missing") errors.
Proof.
  pose proof (validate_reports_missing_field
           [("id", PStr "P1"); ("name", PStr "N")] "weight")
    as Hthm; apply Hthm; clear Hthm.
  - simpl. tauto.
  - reflexivity.
Defined.

Lemma verdict_by_range_witness :
  Patient.verdict john = ok "Normal weight" /\
  Patient.verdict infinite_patient = ok "Obesity".
Proof.
  split.
  - destruct (verdict_by_range john (float_lit 2279 2))
      as (_ & _ & Hnormal & _); [vm_compute; reflexivity |].
    apply Hnormal; vm_compute; reflexivity.
  - destruct (verdict_by_range infinite_patient nan)
      as (_ & _ & _ & _ & _ & Hnan); [vm_compute; reflexivity |].
    apply Hnan. reflexivity.
Defined.

Lemma bmi_is_not_negative_witness :
  sign_clear (float_lit 2279 2) /\
  float_lt (float_lit 2279 2) (S754_zero false) = false.
Proof.
  pose proof (bmi_is_not_negative john (float_lit 2279 2))
    as Hthm; apply Hthm; clear Hthm.
  - unfold base_constraints. simpl Patient.age.
    repeat split; try lia; vm_compute; reflexivity.
  - vm_compute. reflexivity.
Defined.

Lemma update_with_null_fails_witness :
  exists errors,
    update_patient "P001" null_name_update (snd (create_patient john [])) =
      (throw (ValidationError errors), snd (create_patient john [])).
Proof.
  pose proof (update_with_null_fails "P001" null_name_update
           (snd (create_patient john [])))
    as Hthm; apply Hthm; clear Hthm.
  - vm_compute. reflexivity.
  - reflexivity.
Defined.

Lemma update_replaces_given_fields_witness :
  update_patient "P001" move_update (snd (create_patient john [])) =
    (ok (updated_response "P001"),
     Dict.set "P001"
       (record_body (apply_update john move_update) (float_lit 2167 2)
          "Normal weight")
       (snd (create_patient john []))).
Proof.
  pose proof (update_replaces_given_fields "P001" (snd (create_patient john []))
           john (float_lit 2279 2) "Normal weight" move_update)
    as Hthm; apply Hthm; clear Hthm.
  - vm_compute. reflexivity.
  - reflexivity.
  - unfold base_constraints. simpl Patient.age.
    repeat split; try lia; vm_compute; reflexivity.
  - vm_compute. reflexivity.
  - vm_compute. reflexivity.
Defined.

Lemma empty_update_changes_nothing_witness :
  PatientUpdate.validate [] = ok empty_update /\
  update_patient "P001" empty_update (snd (create_patient john [])) =
    (ok (updated_response "P001"), snd (create_patient john [])).
Proof.
  pose proof (empty_update_changes_nothing "P001" (snd (create_patient john []))
           john (float_lit 2279 2) "Normal weight")
    as Hthm; apply Hthm; clear Hthm.
  - unfold base_constraints. simpl Patient.age.
    repeat split; try lia; vm_compute; reflexivity.
  - vm_compute. reflexivity.
  - vm_compute. reflexivity.
  - vm_compute. reflexivity.
Defined.

